(** * Authentication controller: registration, login and profile lookup

    A shallow embedding of [backend/controllers/authController.js].

    The controller is three Express handlers, [register], [login] and
    [getMe], and the helper [generateToken].  Each handler reads the
    request, talks to the user store and to the token signer, and finishes
    either with [res.status(s).json(body)] or with [next(error)].

    The handlers are embedded in a small monad that threads the user store,
    records every call made to a collaborator, and carries JavaScript
    exceptions up to the [try]/[catch] that closes each handler.

    Modelling choices:
    - the [User] model, the token configuration and the error middleware
      are not part of the controller; the store operations follow the
      controller's use of them and the written contract of the store, and
      hashing, comparison and signing are left abstract ([Collaborators]);
    - a stored field holds the value it was given (no schema casting);
    - the exceptions followed here are the ones the controller's own code
      raises and the two with which the store refuses a creation: a
      validation error for a missing required field and the duplicate-key
      error of the unique email index; every other collaborator call
      returns. *)

From Stdlib Require Import List String ZArith Bool Arith Lia.
Import ListNotations.

Open Scope string_scope.
Open Scope list_scope.

Set Warnings "-register-all".

(** ** JavaScript values *)

(** The values that travel through the controller: fields of the parsed JSON
    body, fields of a stored document, and the object given to [res.json].
    JSON numbers are kept to the integers (ages, status codes); [JOid] is a
    store-generated document id. *)
Inductive JsVal : Type :=
| JUndefined
| JNull
| JBool (b : bool)
| JNum (n : Z)
| JStr (s : string)
| JOid (n : nat)
| JArr (items : list JsVal)
| JObj (props : list (string * JsVal)).

(** JavaScript truthiness, as used by [if (x)], [!x] and [a && b]. *)
Definition truthy (v : JsVal) : bool :=
  match v with
  | JUndefined => false
  | JNull => false
  | JBool b => b
  | JNum n => negb (n =? 0)%Z
  | JStr s => negb (s =? "")
  | JOid _ => true
  | JArr _ => true
  | JObj _ => true
  end.

(** Property read [o.k] on the own properties of an object: [undefined] when
    the key is absent. *)
Fixpoint lookup (k : string) (props : list (string * JsVal)) : JsVal :=
  match props with
  | [] => JUndefined
  | (k', v) :: rest => if k' =? k then v else lookup k rest
  end.

Definition get (k : string) (o : JsVal) : JsVal :=
  match o with
  | JObj props => lookup k props
  | _ => JUndefined
  end.

Definition keys (o : JsVal) : list string :=
  match o with
  | JObj props => map fst props
  | _ => []
  end.

Definition has_key (k : string) (o : JsVal) : bool :=
  existsb (fun k' => k' =? k) (keys o).

(** Structural equality, used by the store to match an email. *)
Fixpoint js_eqb (a b : JsVal) : bool :=
  match a, b with
  | JUndefined, JUndefined => true
  | JNull, JNull => true
  | JBool x, JBool y => Bool.eqb x y
  | JNum x, JNum y => (x =? y)%Z
  | JStr x, JStr y => (x =? y)
  | JOid x, JOid y => Nat.eqb x y
  | JArr xs, JArr ys =>
      (fix all2 (xs ys : list JsVal) : bool :=
         match xs, ys with
         | [], [] => true
         | x :: xs', y :: ys' => js_eqb x y && all2 xs' ys'
         | _, _ => false
         end) xs ys
  | JObj ps, JObj qs =>
      (fix all2 (ps qs : list (string * JsVal)) : bool :=
         match ps, qs with
         | [], [] => true
         | (k, x) :: ps', (l, y) :: qs' =>
             (k =? l) && js_eqb x y && all2 ps' qs'
         | _, _ => false
         end) ps qs
  | _, _ => false
  end.

(** ** Requests, errors and replies *)

(** [req.body] is the object produced by the JSON body parser; [req.user.id]
    is the identity attached by the authentication middleware. *)
Record Request : Type := mkRequest {
  body : list (string * JsVal);
  user_id : nat
}.

(** What can be handed to [next]: an [AppError] built by the controller, a
    [TypeError] raised by the JavaScript runtime, or an error raised by the
    store. *)
Inductive Error : Type :=
| AppError (message : string) (statusCode : Z)
| TypeError (message : string)
| MongoServerError (code : Z)
| ValidationError (message : string).

(** How a handler finishes. *)
Inductive Reply : Type :=
| Json (status : Z) (payload : JsVal)
| Next (err : Error).

(** ** The user store *)

(** A stored document of the [User] model. *)
Record User : Type := mkUser {
  _id : nat;
  name : JsVal;
  email : JsVal;
  password : JsVal;
  phone : JsVal;
  age : JsVal;
  gender : JsVal;
  role : JsVal;
  createdAt : JsVal
}.

Definition Store : Type := list User.

Definition set_phone (u : User) (v : JsVal) : User :=
  mkUser (_id u) (name u) (email u) (password u) v (age u) (gender u)
         (role u) (createdAt u).

Definition set_age (u : User) (v : JsVal) : User :=
  mkUser (_id u) (name u) (email u) (password u) (phone u) v (gender u)
         (role u) (createdAt u).

Definition set_gender (u : User) (v : JsVal) : User :=
  mkUser (_id u) (name u) (email u) (password u) (phone u) (age u) v
         (role u) (createdAt u).

(** A document as a default query returns it: the password is not selected. *)
Definition hide_password (u : User) : User :=
  mkUser (_id u) (name u) (email u) JUndefined (phone u) (age u) (gender u)
         (role u) (createdAt u).

(** Modelled from the spec: [User.findOne({ email }).select('+password')] of
    [../models/User], the unique-email lookup that also returns the hidden
    password hash. *)
Definition findOne (e : JsVal) (st : Store) : option User :=
  find (fun u => js_eqb (email u) e) st.

(** Modelled from the spec: [User.findById(id)] of [../models/User], the
    lookup by id with the default projection (no password). *)
Definition findById (i : nat) (st : Store) : option User :=
  option_map hide_password (find (fun u => Nat.eqb (_id u) i) st).

(** An id that no stored document carries. *)
Definition fresh_id (st : Store) : nat :=
  S (fold_right Nat.max 0 (map _id st)).

(** Modelled from the spec: [existingUser.save()] of [../models/User], which
    writes the document back under its id. *)
Definition save (u : User) (st : Store) : Store :=
  map (fun r => if Nat.eqb (_id r) (_id u) then u else r) st.

(** Store well-formedness: ids are unique. *)
Fixpoint unique_ids (st : Store) : bool :=
  match st with
  | [] => true
  | u :: rest =>
      negb (existsb (fun r => Nat.eqb (_id r) (_id u)) rest) && unique_ids rest
  end.

(** Modelled from the spec: the required fields of the [User] schema of
    [../models/User].  Name, email and password are required; phone, age
    and gender are optional.  A required field is missing when its value
    is falsy, as in the controller's own test for a missing field. *)
Definition required_present (fields : list (string * JsVal)) : bool :=
  truthy (lookup "name" fields)
  && truthy (lookup "email" fields)
  && truthy (lookup "password" fields).

(** ** Collaborators *)

(** [../config/jwt]. *)
Record JwtConfig : Type := mkJwtConfig {
  secret : JsVal;
  expiresIn : JsVal
}.

(** The parts the controller is linked against: the signing library, the
    password hashing and comparison of the [User] model, the token
    configuration, and the defaults the [User] schema fills in. *)
Class Collaborators : Type := {
  jwt_sign : JsVal -> JsVal -> JsVal -> string;
  hashPassword : JsVal -> JsVal;
  comparePassword : JsVal -> JsVal -> bool;
  jwtConfig : JwtConfig;
  defaultRole : JsVal;
  now : JsVal
}.

(** Calls made to a collaborator, in the order they are made. *)
Inductive Call : Type :=
| CallFindOne (e : JsVal)
| CallFindById (i : nat)
| CallComparePassword (i : nat) (candidate : JsVal)
| CallSave (i : nat)
| CallCreate (fields : list (string * JsVal))
| CallSign (claims : JsVal) (key : JsVal) (options : JsVal).

(** ** The handler monad *)

Inductive Result (A : Type) : Type :=
| Ok (a : A)
| Throw (e : Error).

Arguments Ok {A} a.
Arguments Throw {A} e.

(** A computation reads and writes the store, logs its collaborator calls
    and either returns or throws. *)
Definition M (A : Type) : Type := Store -> Result A * Store * list Call.

Definition ret {A : Type} (a : A) : M A :=
  fun st => (Ok a, st, []).

Definition throw {A : Type} (e : Error) : M A :=
  fun st => (Throw e, st, []).

Definition bind {A B : Type} (m : M A) (f : A -> M B) : M B :=
  fun st =>
    match m st with
    | (Ok a, st1, l1) =>
        match f a st1 with
        | (r, st2, l2) => (r, st2, l1 ++ l2)
        end
    | (Throw e, st1, l1) => (Throw e, st1, l1)
    end.

Definition tell (c : Call) : M unit :=
  fun st => (Ok tt, st, [c]).

Declare Scope handler_scope.
Delimit Scope handler_scope with handler.

Notation "x <- m ;; k" := (bind m (fun x => k))
  (at level 100, m at next level, right associativity) : handler_scope.
Notation "m ;;; k" := (bind m (fun _ => k))
  (at level 100, right associativity) : handler_scope.

Open Scope handler_scope.

(** [try { ... } catch (error) { next(error); }] at the handler boundary. *)
Definition try_catch (m : M Reply) : Store -> Reply * Store * list Call :=
  fun st =>
    match m st with
    | (Ok r, st', l) => (r, st', l)
    | (Throw e, st', l) => (Next e, st', l)
    end.

Definition reply_of (x : Reply * Store * list Call) : Reply := fst (fst x).
Definition store_of (x : Reply * Store * list Call) : Store := snd (fst x).
Definition calls_of (x : Reply * Store * list Call) : list Call := snd x.

Definition next (e : Error) : M Reply := ret (Next e).
Definition json (status : Z) (payload : JsVal) : M Reply :=
  ret (Json status payload).

(** ** The controller *)

Section Controller.

Context {C : Collaborators}.

(** Store operations, as awaited by the handlers. *)
Definition User_findOne (e : JsVal) : M (option User) :=
  fun st => (Ok (findOne e st), st, [CallFindOne e]).

Definition User_findById (i : nat) : M (option User) :=
  fun st => (Ok (findById i st), st, [CallFindById i]).

Definition User_comparePassword (u : User) (candidate : JsVal) : M bool :=
  tell (CallComparePassword (_id u) candidate) ;;;
  ret (comparePassword (password u) candidate).

Definition User_save (u : User) : M unit :=
  fun st => (Ok tt, save u st, [CallSave (_id u)]).

(** Modelled from the spec: [User.create(fields)] of [../models/User].
    Fields with a required one missing fail validation and nothing is
    stored; the unique index on the email rejects a second document for a
    stored email (duplicate key, 11000); otherwise the password is hashed
    by the store layer, the id is generated, role and creation time take
    their defaults, and the document is stored. *)
Definition User_create (fields : list (string * JsVal)) : M User :=
  fun st =>
    if negb (required_present fields) then
      (Throw (ValidationError "User validation failed"), st,
       [CallCreate fields])
    else
    match findOne (lookup "email" fields) st with
    | Some _ => (Throw (MongoServerError 11000), st, [CallCreate fields])
    | None =>
        let u := mkUser (fresh_id st)
                        (lookup "name" fields)
                        (lookup "email" fields)
                        (hashPassword (lookup "password" fields))
                        (lookup "phone" fields)
                        (lookup "age" fields)
                        (lookup "gender" fields)
                        defaultRole
                        now in
        (Ok u, st ++ [u], [CallCreate fields])
    end.

(** Reading a property of the result of a lookup: a [TypeError] on [null]. *)
Definition deref (o : option User) : M User :=
  match o with
  | Some u => ret u
  | None => throw (TypeError "Cannot read properties of null (reading '_id')")
  end.

(** [generateToken]: [jwt.sign({ id }, jwtConfig.secret,
    { expiresIn: jwtConfig.expiresIn })]. *)
Definition token_claims (id : JsVal) : JsVal := JObj [("id", id)].

Definition token_options : JsVal :=
  JObj [("expiresIn", expiresIn jwtConfig)].

Definition generateToken (id : JsVal) : M JsVal :=
  tell (CallSign (token_claims id) (secret jwtConfig) token_options) ;;;
  ret (JStr (jwt_sign (token_claims id) (secret jwtConfig) token_options)).

(** The [user] object of the register and login responses. *)
Definition user_view (u : User) : JsVal :=
  JObj [("id", JOid (_id u));
        ("name", name u);
        ("email", email u);
        ("role", role u);
        ("phone", phone u)].

(** The [user] object of the [getMe] response. *)
Definition profile_view (u : User) : JsVal :=
  JObj [("id", JOid (_id u));
        ("name", name u);
        ("email", email u);
        ("role", role u);
        ("createdAt", createdAt u)].

Definition success_body (message : string) (view token : JsVal) : JsVal :=
  JObj [("success", JBool true);
        ("message", JStr message);
        ("data", JObj [("user", view); ("token", token)])].

(** The three guarded assignments of the recognised-duplicate path, with the
    [profileUpdated] flag. *)
Definition backfill_phone (v : JsVal) (s : User * bool) : User * bool :=
  if truthy v && negb (truthy (phone (fst s)))
  then (set_phone (fst s) v, true) else s.

Definition backfill_age (v : JsVal) (s : User * bool) : User * bool :=
  if truthy v && negb (truthy (age (fst s)))
  then (set_age (fst s) v, true) else s.

Definition backfill_gender (v : JsVal) (s : User * bool) : User * bool :=
  if truthy v && negb (truthy (gender (fst s)))
  then (set_gender (fst s) v, true) else s.

Definition backfill (vphone vage vgender : JsVal) (u : User) : User * bool :=
  backfill_gender vgender
    (backfill_age vage (backfill_phone vphone (u, false))).

(** [POST /api/auth/register]. *)
Definition register (req : Request) : Store -> Reply * Store * list Call :=
  try_catch (
    let name := lookup "name" (body req) in
    let email := lookup "email" (body req) in
    let password := lookup "password" (body req) in
    let phone := lookup "phone" (body req) in
    let age := lookup "age" (body req) in
    let gender := lookup "gender" (body req) in
    existingUser <- User_findOne email ;;
    match existingUser with
    | Some existingUser =>
        if negb (truthy password) then
          next (AppError
                  "Account already exists with this email. Please login." 400)
        else
          isSamePassword <- User_comparePassword existingUser password ;;
          if negb isSamePassword then
            next (AppError
                    "Account already exists with this email. Please login with your original password."
                    400)
          else
            let '(existingUser, profileUpdated) :=
              backfill phone age gender existingUser in
            (if profileUpdated then User_save existingUser else ret tt) ;;;
            token <- generateToken (JOid (_id existingUser)) ;;
            json 200
              (success_body
                 "Existing patient recognized. Logged in successfully."
                 (user_view existingUser) token)
    | None =>
        user <- User_create [("name", name); ("email", email);
                             ("password", password); ("phone", phone);
                             ("age", age); ("gender", gender)] ;;
        token <- generateToken (JOid (_id user)) ;;
        json 201
          (success_body "User registered successfully" (user_view user) token)
    end).

(** [POST /api/auth/login]. *)
Definition login (req : Request) : Store -> Reply * Store * list Call :=
  try_catch (
    let email := lookup "email" (body req) in
    let password := lookup "password" (body req) in
    if negb (truthy email) || negb (truthy password) then
      next (AppError "Please provide email and password" 400)
    else
      user <- User_findOne email ;;
      match user with
      | None => next (AppError "Invalid credentials" 401)
      | Some user =>
          ok <- User_comparePassword user password ;;
          if negb ok then next (AppError "Invalid credentials" 401)
          else
            token <- generateToken (JOid (_id user)) ;;
            json 200 (success_body "Login successful" (user_view user) token)
      end).

(** [GET /api/auth/me]. *)
Definition getMe (req : Request) : Store -> Reply * Store * list Call :=
  try_catch (
    found <- User_findById (user_id req) ;;
    user <- deref found ;;
    json 200
      (JObj [("success", JBool true);
             ("data", JObj [("user", profile_view user)])])).

(** A run of registrations, one after the other, on the same store. *)
Fixpoint register_all (reqs : list Request) (st : Store) : Store :=
  match reqs with
  | [] => st
  | r :: rest => register_all rest (store_of (register r st))
  end.

End Controller.

(** ** Reading the handlers *)

(** The fields [register] hands to [User.create]. *)
Definition create_fields (req : Request) : list (string * JsVal) :=
  [("name", lookup "name" (body req));
   ("email", lookup "email" (body req));
   ("password", lookup "password" (body req));
   ("phone", lookup "phone" (body req));
   ("age", lookup "age" (body req));
   ("gender", lookup "gender" (body req))].

(** ** Reading the backfill *)

(** The condition under which the recognised-duplicate path assigns a field:
    the request carries a truthy value and the stored one is falsy. *)
Definition fills (requested stored : JsVal) : bool :=
  truthy requested && negb (truthy stored).

(** ** Error formatting *)

(** Modelled from the spec: the error-formatting middleware of
    [../middleware/errorHandler].  A typed failure keeps its own status
    code, a validation failure is answered 400, and any other exception is
    an unexpected failure, HTTP 500. *)
Definition http_status (r : Reply) : Z :=
  match r with
  | Json s _ => s
  | Next (AppError _ c) => c
  | Next (TypeError _) => 500
  | Next (MongoServerError _) => 500
  | Next (ValidationError _) => 400
  end.

(** ** Sample collaborators, store and requests *)

Definition sample_hash (v : JsVal) : JsVal :=
  match v with
  | JStr s => JStr ("hashed:" ++ s)
  | _ => JUndefined
  end.

Definition sample_compare (stored candidate : JsVal) : bool :=
  truthy stored && js_eqb stored (sample_hash candidate).

Definition sample_sign (claims key options : JsVal) : string :=
  match get "id" claims with
  | JOid n => "jwt." ++ String.concat "" (repeat "i" n)
  | _ => "jwt"
  end.

Definition sample : Collaborators := {|
  jwt_sign := sample_sign;
  hashPassword := sample_hash;
  comparePassword := sample_compare;
  jwtConfig := mkJwtConfig (JStr "s3cret") (JStr "7d");
  defaultRole := JStr "patient";
  now := JNum 1700000000
|}.

(** Alice registered with a phone number; her age was stored as [0] and her
    gender never given. *)
Definition alice : User :=
  mkUser 1 (JStr "Alice") (JStr "alice@example.com") (JStr "hashed:wonder")
         (JStr "555-0100") (JNum 0) JUndefined (JStr "patient")
         (JNum 1600000000).

Definition bob : User :=
  mkUser 2 (JStr "Bob") (JStr "bob@example.com") (JStr "hashed:builder")
         (JStr "") JUndefined (JStr "male") (JStr "patient")
         (JNum 1600000500).

Definition sample_store : Store := [alice; bob].

Definition request (fields : list (string * JsVal)) : Request :=
  mkRequest fields 0.

(** Alice registers again with her password and other contact details. *)
Definition alice_again : Request :=
  request [("name", JStr "Alice"); ("email", JStr "alice@example.com");
           ("password", JStr "wonder"); ("phone", JStr "555-0199");
           ("age", JNum 34); ("gender", JStr "")].

(** Bob registers again with his password, a phone number and an age of 0. *)
Definition bob_again : Request :=
  request [("name", JStr "Bob"); ("email", JStr "bob@example.com");
           ("password", JStr "builder"); ("phone", JStr "555-0142");
           ("age", JNum 0); ("gender", JStr "other")].

Definition alice_wrong_password : Request :=
  request [("name", JStr "Alice"); ("email", JStr "alice@example.com");
           ("password", JStr "rabbit"); ("phone", JStr "555-0199")].

Definition alice_no_password : Request :=
  request [("name", JStr "Alice"); ("email", JStr "alice@example.com")].

Definition carol_new : Request :=
  request [("name", JStr "Carol"); ("email", JStr "carol@example.com");
           ("password", JStr "singer"); ("age", JNum 29)].

(** A registration form with only the address filled in. *)
Definition dave_email_only : Request :=
  request [("email", JStr "dave@example.com")].

(** Dave registers with an age of 0, and later again with his password and
    another age. *)
Definition dave_new : Request :=
  request [("name", JStr "Dave"); ("email", JStr "dave@example.com");
           ("password", JStr "diver"); ("age", JNum 0)].

Definition dave_again : Request :=
  request [("name", JStr "Dave"); ("email", JStr "dave@example.com");
           ("password", JStr "diver"); ("age", JNum 41)].

(** A login for an address nobody registered. *)
Definition ghost_login : Request :=
  request [("email", JStr "ghost@example.com"); ("password", JStr "boo")].

(** The same, with the password left out. *)
Definition ghost_login_no_password : Request :=
  request [("email", JStr "ghost@example.com")].

(** A profile request whose token names a document that is gone. *)
Definition deleted_user_profile : Request := mkRequest [] 7.

Definition alice_profile : Request := mkRequest [] 1.

(** ** Reading the call log, the reply and the store *)

Definition is_sign (c : Call) : bool :=
  match c with
  | CallSign _ _ _ => true
  | _ => false
  end.

Definition is_write (c : Call) : bool :=
  match c with
  | CallSave _ => true
  | CallCreate _ => true
  | _ => false
  end.

Definition is_json (r : Reply) : bool :=
  match r with
  | Json _ _ => true
  | Next _ => false
  end.

Definition count (p : Call -> bool) (calls : list Call) : nat :=
  List.length (filter p calls).

(** Every stored record is the one that a lookup by its own email returns:
    no two records answer to the same email. *)
Definition email_keyed (st : Store) : bool :=
  forallb (fun r =>
             match findOne (email r) st with
             | Some r' => Nat.eqb (_id r') (_id r)
             | None => false
             end) st.

Definition wf_store (st : Store) : bool :=
  unique_ids st && email_keyed st.

(** A profile request for the user with the given id. *)
Definition profile_of (i : nat) : Request := mkRequest [] i.

(** * Properties *)

(** ** JavaScript values *)

Fixpoint js_eqb_refl (v : JsVal) : js_eqb v v = true.
Proof.
  destruct v as [ | | b | n | s | n | items | props ]; simpl.
  - reflexivity.
  - reflexivity.
  - apply Bool.eqb_reflx.
  - apply Z.eqb_refl.
  - apply String.eqb_refl.
  - apply Nat.eqb_refl.
  - revert items. fix IH 1. intros [ | x items ].
    + reflexivity.
    + rewrite (js_eqb_refl x), (IH items). reflexivity.
  - revert props. fix IH 1. intros [ | [k x] props ].
    + reflexivity.
    + rewrite String.eqb_refl, (js_eqb_refl x), (IH props). reflexivity.
Qed.

(** ** The store *)

Lemma find_snoc {A : Type} (f : A -> bool) (l : list A) (x : A) :
  find f l = None -> find f (l ++ [x]) = if f x then Some x else None.
Proof.
  induction l as [ | a l IH ]; simpl.
  - reflexivity.
  - destruct (f a); [ discriminate | exact IH ].
Qed.

Lemma findOne_In (e : JsVal) (st : Store) (u : User) :
  findOne e st = Some u -> In u st.
Proof.
  unfold findOne. intros H. apply find_some in H. tauto.
Qed.

Lemma save_ids (u : User) (st : Store) :
  map _id (save u st) = map _id st.
Proof.
  unfold save. rewrite map_map. apply map_ext.
  intros r. destruct (Nat.eqb (_id r) (_id u)) eqn:E.
  - apply Nat.eqb_eq in E. congruence.
  - reflexivity.
Qed.

Lemma save_length (u : User) (st : Store) :
  List.length (save u st) = List.length st.
Proof.
  unfold save. apply length_map.
Qed.

Lemma save_In (u u' : User) (st : Store) :
  In u st -> _id u = _id u' -> In u' (save u' st).
Proof.
  intros Hin Hid. unfold save. apply in_map_iff.
  exists u. split; [ | exact Hin ].
  rewrite Hid, Nat.eqb_refl. reflexivity.
Qed.

Lemma save_other (u' r : User) (st : Store) :
  In r st -> _id r <> _id u' -> In r (save u' st).
Proof.
  intros Hin Hid. unfold save. apply in_map_iff.
  exists r. split; [ | exact Hin ].
  apply Nat.eqb_neq in Hid. rewrite Hid. reflexivity.
Qed.

Lemma existsb_id_false (i : nat) (st : Store) :
  existsb (fun r => Nat.eqb (_id r) i) st = false <-> ~ In i (map _id st).
Proof.
  induction st as [ | r st IH ]; simpl.
  - tauto.
  - rewrite orb_false_iff, IH, Nat.eqb_neq. tauto.
Qed.

Lemma unique_ids_NoDup (st : Store) :
  unique_ids st = true <-> NoDup (map _id st).
Proof.
  induction st as [ | u st IH ]; simpl.
  - split; [ constructor | reflexivity ].
  - rewrite andb_true_iff, negb_true_iff, existsb_id_false, IH.
    split.
    + intros [H1 H2]. constructor; assumption.
    + intros H. inversion H; subst. tauto.
Qed.

Lemma unique_ids_same (st : Store) (a b : User) :
  unique_ids st = true -> In a st -> In b st -> _id a = _id b -> a = b.
Proof.
  induction st as [ | u st IH ]; simpl; intros Hu Ha Hb Hid.
  - contradiction.
  - apply andb_true_iff in Hu. destruct Hu as [Hfresh Hrest].
    apply negb_true_iff in Hfresh.
    pose proof (proj1 (existsb_id_false _ _) Hfresh) as Hnot.
    destruct Ha as [Ha | Ha], Hb as [Hb | Hb]; subst.
    + reflexivity.
    + exfalso. apply Hnot. rewrite Hid. apply in_map. exact Hb.
    + exfalso. apply Hnot. rewrite <- Hid. apply in_map. exact Ha.
    + apply IH; assumption.
Qed.

Lemma unique_ids_save (u : User) (st : Store) :
  unique_ids st = true -> unique_ids (save u st) = true.
Proof.
  rewrite !unique_ids_NoDup, save_ids. tauto.
Qed.

Lemma fresh_id_above (st : Store) (u : User) :
  In u st -> _id u < fresh_id st.
Proof.
  unfold fresh_id. induction st as [ | r st IH ]; simpl; intros Hin.
  - contradiction.
  - destruct Hin as [Hin | Hin].
    + subst. lia.
    + specialize (IH Hin). lia.
Qed.

Lemma unique_ids_create (u : User) (st : Store) :
  unique_ids st = true -> _id u = fresh_id st ->
  unique_ids (st ++ [u]) = true.
Proof.
  rewrite !unique_ids_NoDup, map_app. simpl. intros Hnd Hid.
  apply NoDup_app.
  - exact Hnd.
  - repeat constructor. simpl. tauto.
  - intros i Hi [Heq | []]. subst i.
    apply in_map_iff in Hi. destruct Hi as [r [Hr Hin]].
    apply fresh_id_above in Hin. lia.
Qed.

Lemma save_emails (u u' : User) (st : Store) :
  unique_ids st = true -> In u st ->
  _id u' = _id u -> email u' = email u ->
  map email (save u' st) = map email st.
Proof.
  intros Hu Hin Hid Hem. unfold save. rewrite map_map.
  apply map_ext_in. intros r Hr.
  destruct (Nat.eqb (_id r) (_id u')) eqn:E.
  - apply Nat.eqb_eq in E.
    assert (r = u) by (apply (unique_ids_same st); congruence).
    congruence.
  - reflexivity.
Qed.

Lemma find_id_unique (u : User) (st : Store) :
  unique_ids st = true -> In u st ->
  find (fun r => Nat.eqb (_id r) (_id u)) st = Some u.
Proof.
  intros Hu Hin.
  destruct (find (fun r => Nat.eqb (_id r) (_id u)) st) as [ r | ] eqn:F.
  - apply find_some in F. destruct F as [Hr E]. apply Nat.eqb_eq in E.
    f_equal. apply (unique_ids_same st); assumption.
  - exfalso. pose proof (find_none _ _ F u Hin) as E. simpl in E.
    rewrite Nat.eqb_refl in E. discriminate.
Qed.

(** ** Backfill *)

Lemma fills_differ (requested stored : JsVal) :
  fills requested stored = true -> requested <> stored.
Proof.
  unfold fills. intros H E. subst.
  destruct (truthy stored); discriminate.
Qed.

Lemma backfill_fixed (p a g : JsVal) (u : User) :
  let u' := fst (backfill p a g u) in
  _id u' = _id u /\ name u' = name u /\ email u' = email u /\
  password u' = password u /\ role u' = role u /\
  createdAt u' = createdAt u.
Proof.
  unfold backfill, backfill_gender, backfill_age, backfill_phone. simpl.
  destruct (truthy p && negb (truthy (phone u))); simpl;
    destruct (truthy a && negb (truthy _)); simpl;
    destruct (truthy g && negb (truthy _)); simpl; tauto.
Qed.

Lemma backfill_fields (p a g : JsVal) (u : User) :
  let u' := fst (backfill p a g u) in
  phone u' = (if fills p (phone u) then p else phone u) /\
  age u' = (if fills a (age u) then a else age u) /\
  gender u' = (if fills g (gender u) then g else gender u).
Proof.
  unfold backfill, backfill_gender, backfill_age, backfill_phone, fills.
  simpl.
  destruct (truthy p && negb (truthy (phone u))); simpl;
    destruct (truthy a && negb (truthy (age u))); simpl;
    destruct (truthy g && negb (truthy (gender u))); simpl; tauto.
Qed.

Lemma backfill_flag (p a g : JsVal) (u : User) :
  snd (backfill p a g u) =
  fills p (phone u) || fills a (age u) || fills g (gender u).
Proof.
  unfold backfill, backfill_gender, backfill_age, backfill_phone, fills.
  simpl.
  destruct (truthy p && negb (truthy (phone u))); simpl;
    destruct (truthy a && negb (truthy (age u))); simpl;
    destruct (truthy g && negb (truthy (gender u))); reflexivity.
Qed.

Lemma backfill_unchanged (p a g : JsVal) (u : User) :
  snd (backfill p a g u) = false -> fst (backfill p a g u) = u.
Proof.
  unfold backfill, backfill_gender, backfill_age, backfill_phone.
  simpl.
  destruct (truthy p && negb (truthy (phone u))); simpl;
    destruct (truthy a && negb (truthy _)); simpl;
    destruct (truthy g && negb (truthy _)); simpl;
    intros H; try discriminate H; reflexivity.
Qed.

Lemma backfill_changed (p a g : JsVal) (u : User) :
  snd (backfill p a g u) = true -> fst (backfill p a g u) <> u.
Proof.
  rewrite backfill_flag. intros H E.
  destruct (backfill_fields p a g u) as [Hp [Ha Hg]].
  rewrite E in Hp, Ha, Hg.
  destruct (fills p (phone u)) eqn:Fp.
  { apply fills_differ in Fp. congruence. }
  destruct (fills a (age u)) eqn:Fa.
  { apply fills_differ in Fa. congruence. }
  destruct (fills g (gender u)) eqn:Fg.
  { apply fills_differ in Fg. congruence. }
  discriminate H.
Qed.

Lemma backfill_keeps_set (p a g : JsVal) (u : User) :
  let u' := fst (backfill p a g u) in
  (truthy (phone u) = true -> phone u' = phone u) /\
  (truthy (age u) = true -> age u' = age u) /\
  (truthy (gender u) = true -> gender u' = gender u).
Proof.
  destruct (backfill_fields p a g u) as [Hp [Ha Hg]]. simpl.
  unfold fills in *.
  repeat split; intros T.
  - rewrite Hp, T, andb_false_r. reflexivity.
  - rewrite Ha, T, andb_false_r. reflexivity.
  - rewrite Hg, T, andb_false_r. reflexivity.
Qed.

(** ** The handlers, path by path *)

Section Paths.

Context {C : Collaborators}.

Lemma register_new_path (req : Request) (st : Store) :
  findOne (lookup "email" (body req)) st = None ->
  required_present (create_fields req) = true ->
  let u := mkUser (fresh_id st)
                  (lookup "name" (body req))
                  (lookup "email" (body req))
                  (hashPassword (lookup "password" (body req)))
                  (lookup "phone" (body req))
                  (lookup "age" (body req))
                  (lookup "gender" (body req))
                  defaultRole now in
  register req st =
  (Json 201 (success_body "User registered successfully" (user_view u)
               (JStr (jwt_sign (token_claims (JOid (_id u)))
                               (secret jwtConfig) token_options))),
   st ++ [u],
   [CallFindOne (lookup "email" (body req));
    CallCreate (create_fields req);
    CallSign (token_claims (JOid (_id u))) (secret jwtConfig) token_options]).
Proof.
  intros H V. unfold create_fields in V.
  unfold register, try_catch, bind, User_findOne, User_create.
  cbv beta zeta. rewrite H. cbv beta iota zeta. rewrite V.
  simpl. rewrite H. reflexivity.
Qed.

Lemma register_invalid_path (req : Request) (st : Store) :
  findOne (lookup "email" (body req)) st = None ->
  required_present (create_fields req) = false ->
  register req st =
  (Next (ValidationError "User validation failed"),
   st,
   [CallFindOne (lookup "email" (body req));
    CallCreate (create_fields req)]).
Proof.
  intros H V. unfold create_fields in V.
  unfold register, try_catch, bind, User_findOne, User_create.
  cbv beta zeta. rewrite H. cbv beta iota zeta. rewrite V.
  reflexivity.
Qed.

Lemma register_no_password_path (req : Request) (st : Store) (u : User) :
  findOne (lookup "email" (body req)) st = Some u ->
  truthy (lookup "password" (body req)) = false ->
  register req st =
  (Next (AppError "Account already exists with this email. Please login."
                  400),
   st,
   [CallFindOne (lookup "email" (body req))]).
Proof.
  intros H T. unfold register, try_catch, bind, User_findOne.
  simpl. rewrite H, T. reflexivity.
Qed.

Lemma register_wrong_password_path (req : Request) (st : Store) (u : User) :
  findOne (lookup "email" (body req)) st = Some u ->
  truthy (lookup "password" (body req)) = true ->
  comparePassword (password u) (lookup "password" (body req)) = false ->
  register req st =
  (Next (AppError
           "Account already exists with this email. Please login with your original password."
           400),
   st,
   [CallFindOne (lookup "email" (body req));
    CallComparePassword (_id u) (lookup "password" (body req))]).
Proof.
  intros H T P.
  unfold register, try_catch, bind, User_findOne, User_comparePassword, tell.
  simpl. rewrite H, T. simpl. rewrite P. reflexivity.
Qed.

Lemma register_recognized_path (req : Request) (st : Store) (u : User) :
  findOne (lookup "email" (body req)) st = Some u ->
  truthy (lookup "password" (body req)) = true ->
  comparePassword (password u) (lookup "password" (body req)) = true ->
  let r := backfill (lookup "phone" (body req)) (lookup "age" (body req))
                    (lookup "gender" (body req)) u in
  register req st =
  (Json 200
     (success_body "Existing patient recognized. Logged in successfully."
        (user_view (fst r))
        (JStr (jwt_sign (token_claims (JOid (_id u)))
                        (secret jwtConfig) token_options))),
   (if snd r then save (fst r) st else st),
   [CallFindOne (lookup "email" (body req));
    CallComparePassword (_id u) (lookup "password" (body req))]
   ++ (if snd r then [CallSave (_id u)] else [])
   ++ [CallSign (token_claims (JOid (_id u))) (secret jwtConfig)
                token_options]).
Proof.
  intros H T P r.
  pose proof (backfill_fixed (lookup "phone" (body req))
                (lookup "age" (body req)) (lookup "gender" (body req)) u)
    as Hfix.
  simpl in Hfix. destruct Hfix as [Hid _]. fold r in Hid.
  unfold register, try_catch, bind, User_findOne, User_comparePassword, tell.
  simpl. rewrite H, T. simpl. rewrite P. simpl. fold r.
  destruct r as [u' changed]. simpl in *.
  destruct changed; simpl; unfold User_save, generateToken, bind, tell, json,
    ret; simpl; rewrite Hid; reflexivity.
Qed.

Lemma login_missing_fields_path (req : Request) (st : Store) :
  truthy (lookup "email" (body req)) = false \/
  truthy (lookup "password" (body req)) = false ->
  login req st =
  (Next (AppError "Please provide email and password" 400), st, []).
Proof.
  intros H. unfold login, try_catch.
  destruct H as [H | H]; rewrite H; simpl; [ | rewrite orb_true_r ];
    reflexivity.
Qed.

Lemma login_unknown_email_path (req : Request) (st : Store) :
  truthy (lookup "email" (body req)) = true ->
  truthy (lookup "password" (body req)) = true ->
  findOne (lookup "email" (body req)) st = None ->
  login req st =
  (Next (AppError "Invalid credentials" 401), st,
   [CallFindOne (lookup "email" (body req))]).
Proof.
  intros Te Tp H. unfold login, try_catch, bind, User_findOne.
  rewrite Te, Tp. simpl. rewrite H. reflexivity.
Qed.

Lemma login_wrong_password_path (req : Request) (st : Store) (u : User) :
  truthy (lookup "email" (body req)) = true ->
  truthy (lookup "password" (body req)) = true ->
  findOne (lookup "email" (body req)) st = Some u ->
  comparePassword (password u) (lookup "password" (body req)) = false ->
  login req st =
  (Next (AppError "Invalid credentials" 401), st,
   [CallFindOne (lookup "email" (body req));
    CallComparePassword (_id u) (lookup "password" (body req))]).
Proof.
  intros Te Tp H P.
  unfold login, try_catch, bind, User_findOne, User_comparePassword, tell.
  rewrite Te, Tp. simpl. rewrite H. simpl. rewrite P. reflexivity.
Qed.

Lemma login_success_path (req : Request) (st : Store) (u : User) :
  truthy (lookup "email" (body req)) = true ->
  truthy (lookup "password" (body req)) = true ->
  findOne (lookup "email" (body req)) st = Some u ->
  comparePassword (password u) (lookup "password" (body req)) = true ->
  login req st =
  (Json 200
     (success_body "Login successful" (user_view u)
        (JStr (jwt_sign (token_claims (JOid (_id u)))
                        (secret jwtConfig) token_options))),
   st,
   [CallFindOne (lookup "email" (body req));
    CallComparePassword (_id u) (lookup "password" (body req));
    CallSign (token_claims (JOid (_id u))) (secret jwtConfig)
             token_options]).
Proof.
  intros Te Tp H P.
  unfold login, try_catch, bind, User_findOne, User_comparePassword, tell.
  rewrite Te, Tp. simpl. rewrite H. simpl. rewrite P. reflexivity.
Qed.

Lemma getMe_found_path (req : Request) (st : Store) (u : User) :
  findById (user_id req) st = Some u ->
  getMe req st =
  (Json 200 (JObj [("success", JBool true);
                   ("data", JObj [("user", profile_view u)])]),
   st, [CallFindById (user_id req)]).
Proof.
  intros H. unfold getMe, try_catch, bind, User_findById.
  rewrite H. reflexivity.
Qed.

Lemma getMe_missing_path (req : Request) (st : Store) :
  findById (user_id req) st = None ->
  getMe req st =
  (Next (TypeError "Cannot read properties of null (reading '_id')"),
   st, [CallFindById (user_id req)]).
Proof.
  intros H. unfold getMe, try_catch, bind, User_findById.
  rewrite H. reflexivity.
Qed.

End Paths.

(** Splits a goal about [register req st] along the five paths of the
    handler and rewrites the call with the outcome of each. *)
Ltac register_paths req st :=
  let u := fresh "found" in
  let F := fresh "Hfind" in
  let T := fresh "Hpw" in
  let P := fresh "Hcmp" in
  let V := fresh "Hvalid" in
  let E := fresh "Hrun" in
  destruct (findOne (lookup "email" (body req)) st) as [ u | ] eqn:F;
  [ destruct (truthy (lookup "password" (body req))) eqn:T;
    [ destruct (comparePassword (password u) (lookup "password" (body req)))
        eqn:P;
      [ pose proof (register_recognized_path req st u F T P) as E
      | pose proof (register_wrong_password_path req st u F T P) as E ]
    | pose proof (register_no_password_path req st u F T) as E ]
  | destruct (required_present (create_fields req)) eqn:V;
    [ pose proof (register_new_path req st F V) as E
    | pose proof (register_invalid_path req st F V) as E ] ];
  cbv zeta in E; rewrite E in *.

(** ** Claims *)

Section Claims.

Context {C : Collaborators}.

(** C1 (as amended).  For login requests that supply both an email and a
    password, an unknown email and a password that fails verification get
    the same answer: the error [Invalid credentials] with status 401, and
    the store is left as it was. *)
Theorem login_failures_indistinguishable
    (req1 req2 : Request) (st1 st2 : Store) (u : User) :
  truthy (lookup "email" (body req1)) = true ->
  truthy (lookup "password" (body req1)) = true ->
  truthy (lookup "email" (body req2)) = true ->
  truthy (lookup "password" (body req2)) = true ->
  findOne (lookup "email" (body req1)) st1 = None ->
  findOne (lookup "email" (body req2)) st2 = Some u ->
  comparePassword (password u) (lookup "password" (body req2)) = false ->
  reply_of (login req1 st1) = Next (AppError "Invalid credentials" 401) /\
  reply_of (login req2 st2) = reply_of (login req1 st1) /\
  http_status (reply_of (login req1 st1)) = 401%Z /\
  store_of (login req1 st1) = st1 /\
  store_of (login req2 st2) = st2.
Proof.
  intros Te1 Tp1 Te2 Tp2 Hnone Hsome Hbad.
  rewrite (login_unknown_email_path req1 st1 Te1 Tp1 Hnone).
  rewrite (login_wrong_password_path req2 st2 u Te2 Tp2 Hsome Hbad).
  repeat split.
Qed.

(** C3 (as amended).  A registration whose email matches no stored user
    and which carries the required fields (name, email and password)
    appends exactly one document holding the given fields (the password
    hashed), signs a token for the new id, and answers 201 with the success
    flag, a message, the view [id, name, email, role, phone] and the
    token. *)
Theorem register_new_user_created (req : Request) (st : Store) :
  findOne (lookup "email" (body req)) st = None ->
  truthy (lookup "name" (body req)) = true ->
  truthy (lookup "email" (body req)) = true ->
  truthy (lookup "password" (body req)) = true ->
  exists u : User,
    store_of (register req st) = st ++ [u] /\
    (forall r, In r st -> _id r <> _id u) /\
    findOne (lookup "email" (body req)) (store_of (register req st))
      = Some u /\
    name u = lookup "name" (body req) /\
    email u = lookup "email" (body req) /\
    password u = hashPassword (lookup "password" (body req)) /\
    phone u = lookup "phone" (body req) /\
    age u = lookup "age" (body req) /\
    gender u = lookup "gender" (body req) /\
    reply_of (register req st) =
      Json 201
        (JObj [("success", JBool true);
               ("message", JStr "User registered successfully");
               ("data",
                JObj [("user",
                       JObj [("id", JOid (_id u)); ("name", name u);
                             ("email", email u); ("role", role u);
                             ("phone", phone u)]);
                      ("token",
                       JStr (jwt_sign (JObj [("id", JOid (_id u))])
                               (secret jwtConfig)
                               (JObj [("expiresIn",
                                       expiresIn jwtConfig)])))])]) /\
    calls_of (register req st) =
      [CallFindOne (lookup "email" (body req));
       CallCreate (create_fields req);
       CallSign (JObj [("id", JOid (_id u))]) (secret jwtConfig)
                (JObj [("expiresIn", expiresIn jwtConfig)])].
Proof.
  intros H Tn Te Tp.
  assert (V : required_present (create_fields req) = true).
  { unfold required_present, create_fields. simpl.
    rewrite Tn, Te, Tp. reflexivity. }
  pose proof (register_new_path req st H V) as E. cbv zeta in E.
  rewrite E. eexists. split; [ reflexivity | ].
  split.
  { intros r Hr. apply fresh_id_above in Hr. simpl. lia. }
  split.
  { unfold store_of, findOne. simpl. rewrite (find_snoc _ _ _ H). simpl.
    rewrite js_eqb_refl. reflexivity. }
  repeat split.
Qed.

(** C5.  A registration for a stored email whose password does not verify
    is refused with the [original password] error at status 400; nothing is
    written: the store, and with it the stored hash, is unchanged. *)
Theorem register_wrong_password_rejected
    (req : Request) (st : Store) (u : User) :
  findOne (lookup "email" (body req)) st = Some u ->
  truthy (lookup "password" (body req)) = true ->
  comparePassword (password u) (lookup "password" (body req)) = false ->
  reply_of (register req st) =
    Next (AppError
            "Account already exists with this email. Please login with your original password."
            400) /\
  http_status (reply_of (register req st)) = 400%Z /\
  store_of (register req st) = st /\
  findOne (lookup "email" (body req)) (store_of (register req st)) = Some u /\
  (forall i, ~ In (CallSave i) (calls_of (register req st))) /\
  (forall f, ~ In (CallCreate f) (calls_of (register req st))).
Proof.
  intros F T P. rewrite (register_wrong_password_path req st u F T P).
  unfold reply_of, store_of, calls_of. simpl.
  repeat split; try assumption;
    intros x [ H | [ H | [] ] ]; discriminate H.
Qed.

(** C6.  A registration for a stored email that carries no password is
    refused with the [Please login] error at status 400; the only
    collaborator call is the lookup, so no credential is verified, nothing
    is written and no token is signed. *)
Theorem register_no_password_rejected
    (req : Request) (st : Store) (u : User) :
  findOne (lookup "email" (body req)) st = Some u ->
  truthy (lookup "password" (body req)) = false ->
  reply_of (register req st) =
    Next (AppError "Account already exists with this email. Please login."
                   400) /\
  http_status (reply_of (register req st)) = 400%Z /\
  store_of (register req st) = st /\
  calls_of (register req st) = [CallFindOne (lookup "email" (body req))] /\
  (forall i c, ~ In (CallComparePassword i c) (calls_of (register req st))) /\
  (forall i, ~ In (CallSave i) (calls_of (register req st))) /\
  (forall f, ~ In (CallCreate f) (calls_of (register req st))) /\
  (forall c k o, ~ In (CallSign c k o) (calls_of (register req st))).
Proof.
  intros F T. rewrite (register_no_password_path req st u F T).
  unfold reply_of, store_of, calls_of. simpl.
  repeat split; intros; intros [ H | [] ]; discriminate H.
Qed.

(** X19.  The recognised-duplicate path, as the code runs it: for a stored
    email whose password verifies, each of phone, age and gender is
    assigned exactly when the request value is truthy and the stored value
    falsy, the record is saved only when some field was assigned, a token
    is signed for the existing id, the answer is 200 with the [Existing
    patient recognized] message and the sanitized view, and no document is
    created: the ids and emails in the store are the same as before. *)
Theorem register_recognized_duplicate
    (req : Request) (st : Store) (u : User) :
  unique_ids st = true ->
  findOne (lookup "email" (body req)) st = Some u ->
  truthy (lookup "password" (body req)) = true ->
  comparePassword (password u) (lookup "password" (body req)) = true ->
  exists u' : User,
    (_id u' = _id u /\ name u' = name u /\ email u' = email u /\
     password u' = password u /\ role u' = role u /\
     createdAt u' = createdAt u) /\
    phone u' = (if fills (lookup "phone" (body req)) (phone u)
                then lookup "phone" (body req) else phone u) /\
    age u' = (if fills (lookup "age" (body req)) (age u)
              then lookup "age" (body req) else age u) /\
    gender u' = (if fills (lookup "gender" (body req)) (gender u)
                 then lookup "gender" (body req) else gender u) /\
    store_of (register req st) =
      (if fills (lookup "phone" (body req)) (phone u)
          || fills (lookup "age" (body req)) (age u)
          || fills (lookup "gender" (body req)) (gender u)
       then save u' st else st) /\
    (u' = u -> store_of (register req st) = st) /\
    (In (CallSave (_id u)) (calls_of (register req st)) <-> u' <> u) /\
    (forall f, ~ In (CallCreate f) (calls_of (register req st))) /\
    In (CallSign (JObj [("id", JOid (_id u))]) (secret jwtConfig)
                 (JObj [("expiresIn", expiresIn jwtConfig)]))
       (calls_of (register req st)) /\
    reply_of (register req st) =
      Json 200
        (JObj [("success", JBool true);
               ("message",
                JStr "Existing patient recognized. Logged in successfully.");
               ("data",
                JObj [("user",
                       JObj [("id", JOid (_id u')); ("name", name u');
                             ("email", email u'); ("role", role u');
                             ("phone", phone u')]);
                      ("token",
                       JStr (jwt_sign (JObj [("id", JOid (_id u))])
                               (secret jwtConfig)
                               (JObj [("expiresIn",
                                       expiresIn jwtConfig)])))])]) /\
    map _id (store_of (register req st)) = map _id st /\
    map email (store_of (register req st)) = map email st.
Proof.
  intros Hu F T P.
  pose proof (register_recognized_path req st u F T P) as E. cbv zeta in E.
  rewrite E. clear E.
  pose proof (backfill_fixed (lookup "phone" (body req))
                (lookup "age" (body req)) (lookup "gender" (body req)) u)
    as Hfix.
  pose proof (backfill_fields (lookup "phone" (body req))
                (lookup "age" (body req)) (lookup "gender" (body req)) u)
    as Hfld.
  pose proof (backfill_flag (lookup "phone" (body req))
                (lookup "age" (body req)) (lookup "gender" (body req)) u)
    as Hflag.
  pose proof (backfill_unchanged (lookup "phone" (body req))
                (lookup "age" (body req)) (lookup "gender" (body req)) u)
    as Hsame.
  pose proof (backfill_changed (lookup "phone" (body req))
                (lookup "age" (body req)) (lookup "gender" (body req)) u)
    as Hdiff.
  cbv zeta in Hfix, Hfld.
  destruct (backfill (lookup "phone" (body req)) (lookup "age" (body req))
              (lookup "gender" (body req)) u) as [u' changed].
  simpl in *. unfold reply_of, store_of, calls_of. simpl.
  destruct Hfld as [Hp [Ha Hg]].
  pose proof (findOne_In _ _ _ F) as Hin.
  exists u'. rewrite <- Hflag.
  split; [ exact Hfix | ].
  destruct Hfix as [Hid [_ [Hem _]]].
  repeat (split; [ assumption | ]).
  split; [ reflexivity | ].
  split.
  { intros Heq. destruct changed; [ | reflexivity ].
    exfalso. apply Hdiff; [ reflexivity | exact Heq ]. }
  split.
  { destruct changed; simpl.
    - split; [ intros _; apply Hdiff; reflexivity | intros _; tauto ].
    - split.
      + intros [ H | [ H | [ H | [] ] ] ]; discriminate H.
      + intros Hne. exfalso. apply Hne, Hsame. reflexivity. }
  split.
  { intros f. destruct changed; simpl; intuition discriminate. }
  split.
  { destruct changed; simpl; tauto. }
  split; [ reflexivity | ].
  destruct changed.
  - split; [ apply save_ids | ].
    apply (save_emails u); assumption.
  - split; reflexivity.
Qed.

(** C10.  On the recognised-duplicate path the record stored under the
    user's id afterwards holds, for each of phone, age and gender, the
    request value when that value is truthy and the stored one falsy, and
    the stored value otherwise; so a field changes if and only if the
    request value is truthy and the stored value falsy. *)
Theorem backfill_iff_truthy_request_falsy_stored
    (req : Request) (st : Store) (u : User) :
  unique_ids st = true ->
  findOne (lookup "email" (body req)) st = Some u ->
  truthy (lookup "password" (body req)) = true ->
  comparePassword (password u) (lookup "password" (body req)) = true ->
  exists u' : User,
    find (fun r => Nat.eqb (_id r) (_id u)) (store_of (register req st))
      = Some u' /\
    phone u' = (if truthy (lookup "phone" (body req))
                   && negb (truthy (phone u))
                then lookup "phone" (body req) else phone u) /\
    age u' = (if truthy (lookup "age" (body req)) && negb (truthy (age u))
              then lookup "age" (body req) else age u) /\
    gender u' = (if truthy (lookup "gender" (body req))
                    && negb (truthy (gender u))
                 then lookup "gender" (body req) else gender u) /\
    (phone u' <> phone u <->
     truthy (lookup "phone" (body req)) = true /\
     truthy (phone u) = false) /\
    (age u' <> age u <->
     truthy (lookup "age" (body req)) = true /\ truthy (age u) = false) /\
    (gender u' <> gender u <->
     truthy (lookup "gender" (body req)) = true /\
     truthy (gender u) = false).
Proof.
  intros Hu F T P.
  pose proof (register_recognized_path req st u F T P) as E. cbv zeta in E.
  rewrite E. clear E.
  pose proof (backfill_fixed (lookup "phone" (body req))
                (lookup "age" (body req)) (lookup "gender" (body req)) u)
    as Hfix.
  pose proof (backfill_fields (lookup "phone" (body req))
                (lookup "age" (body req)) (lookup "gender" (body req)) u)
    as Hfld.
  pose proof (backfill_unchanged (lookup "phone" (body req))
                (lookup "age" (body req)) (lookup "gender" (body req)) u)
    as Hsame.
  cbv zeta in Hfix, Hfld.
  destruct (backfill (lookup "phone" (body req)) (lookup "age" (body req))
              (lookup "gender" (body req)) u) as [u' changed].
  simpl in *. unfold store_of. simpl.
  destruct Hfix as [Hid _]. destruct Hfld as [Hp [Ha Hg]].
  pose proof (findOne_In _ _ _ F) as Hin.
  unfold fills in *.
  exists u'. split.
  { destruct changed.
    - rewrite <- Hid. apply find_id_unique.
      + apply unique_ids_save; exact Hu.
      + apply (save_In u); [ exact Hin | congruence ].
    - rewrite (Hsame eq_refl). apply find_id_unique; assumption. }
  repeat (split; [ assumption | ]).
  assert (Hiff : forall requested stored after : JsVal,
             after = (if truthy requested && negb (truthy stored)
                      then requested else stored) ->
             (after <> stored <->
              truthy requested = true /\ truthy stored = false)).
  { intros requested stored after ->.
    destruct (truthy requested) eqn:Tr, (truthy stored) eqn:Ts; simpl; split.
    all: try (intros H; exfalso; apply H; reflexivity).
    all: try (intros [H1 H2]; discriminate).
    - intros _. split; reflexivity.
    - intros _ Heq. subst. congruence. }
  split; [ apply Hiff; assumption | ].
  split; apply Hiff; assumption.
Qed.

(** One registration, whatever its path, keeps ids unique and keeps every
    field of phone, age and gender that was already set on a stored
    record. *)
Lemma register_keeps_set_fields (req : Request) (st : Store) (u : User) :
  unique_ids st = true -> In u st ->
  unique_ids (store_of (register req st)) = true /\
  exists u' : User,
    In u' (store_of (register req st)) /\ _id u' = _id u /\
    (truthy (phone u) = true -> phone u' = phone u) /\
    (truthy (age u) = true -> age u' = age u) /\
    (truthy (gender u) = true -> gender u' = gender u).
Proof.
  intros Hu Hin.
  register_paths req st; unfold store_of; simpl.
  - pose proof (backfill_fixed (lookup "phone" (body req))
                  (lookup "age" (body req)) (lookup "gender" (body req))
                  found) as Hfix.
    pose proof (backfill_keeps_set (lookup "phone" (body req))
                  (lookup "age" (body req)) (lookup "gender" (body req))
                  found) as Hkeep.
    cbv zeta in Hfix, Hkeep.
    destruct (backfill (lookup "phone" (body req)) (lookup "age" (body req))
                (lookup "gender" (body req)) found) as [u' changed].
    simpl in *. destruct Hfix as [Hid _].
    destruct changed.
    + split; [ apply unique_ids_save; exact Hu | ].
      destruct (Nat.eq_dec (_id u) (_id found)) as [Heq | Hne].
      * assert (u = found).
        { apply (unique_ids_same st); try assumption.
          apply (findOne_In _ _ _ Hfind). }
        subst found. exists u'. split.
        { apply (save_In u); [ exact Hin | congruence ]. }
        split; [ exact Hid | exact Hkeep ].
      * exists u. split.
        { apply save_other; [ exact Hin | congruence ]. }
        tauto.
    + split; [ exact Hu | ]. exists u. tauto.
  - split; [ exact Hu | ]. exists u. tauto.
  - split; [ exact Hu | ]. exists u. tauto.
  - split; [ apply unique_ids_create; [ exact Hu | reflexivity ] | ].
    exists u. split; [ apply in_or_app; left; exact Hin | tauto ].
  - split; [ exact Hu | ]. exists u. tauto.
Qed.

(** X20.  A truthy phone, age or gender is never overwritten: through any
    run of registrations on the store, duplicate registrations with the
    matching password and other values included, a record whose phone
    (age, gender) holds a truthy value keeps that value. *)
Theorem backfill_monotonic (reqs : list Request) (st : Store) (u : User) :
  unique_ids st = true -> In u st ->
  unique_ids (register_all reqs st) = true /\
  exists u' : User,
    In u' (register_all reqs st) /\ _id u' = _id u /\
    (truthy (phone u) = true -> phone u' = phone u) /\
    (truthy (age u) = true -> age u' = age u) /\
    (truthy (gender u) = true -> gender u' = gender u).
Proof.
  revert st u. induction reqs as [ | req reqs IH ]; intros st u Hu Hin.
  - simpl. split; [ exact Hu | ]. exists u. tauto.
  - simpl.
    destruct (register_keeps_set_fields req st u Hu Hin)
      as [Hu1 [u1 [Hin1 [Hid1 [Hp1 [Ha1 Hg1]]]]]].
    destruct (IH _ u1 Hu1 Hin1) as [Hu2 [u2 [Hin2 [Hid2 [Hp2 [Ha2 Hg2]]]]]].
    split; [ exact Hu2 | ].
    exists u2. split; [ exact Hin2 | ].
    split; [ congruence | ].
    repeat split; intros T.
    + rewrite <- (Hp1 T). apply Hp2. rewrite (Hp1 T). exact T.
    + rewrite <- (Ha1 T). apply Ha2. rewrite (Ha1 T). exact T.
    + rewrite <- (Hg1 T). apply Hg2. rewrite (Hg1 T). exact T.
Qed.

(** C8.  Every call to the signer made by [register] or [login] signs the
    claims object whose only key is [id], bound to the id of a stored user,
    under the configured secret with the configured [expiresIn] as its only
    option; the claims carry no password and no email, and the signed
    string is the token of the response for that user. *)
Theorem minted_token_claims
    (h : Request -> Store -> Reply * Store * list Call)
    (req : Request) (st : Store) (claims key options : JsVal) :
  h = register \/ h = login ->
  In (CallSign claims key options) (calls_of (h req st)) ->
  exists u : User,
    In u (store_of (h req st)) /\
    claims = JObj [("id", JOid (_id u))] /\
    key = secret jwtConfig /\
    options = JObj [("expiresIn", expiresIn jwtConfig)] /\
    keys claims = ["id"] /\
    has_key "password" claims = false /\
    has_key "email" claims = false /\
    exists (s : Z) (b : JsVal),
      reply_of (h req st) = Json s b /\
      get "token" (get "data" b) = JStr (jwt_sign claims key options) /\
      get "id" (get "user" (get "data" b)) = JOid (_id u).
Proof.
  intros [ -> | -> ] Hcall.
  - register_paths req st; unfold calls_of, store_of, reply_of in *;
      simpl in *.
    + pose proof (backfill_fixed (lookup "phone" (body req))
                    (lookup "age" (body req)) (lookup "gender" (body req))
                    found) as Hfix.
      pose proof (backfill_unchanged (lookup "phone" (body req))
                    (lookup "age" (body req)) (lookup "gender" (body req))
                    found) as Hsame.
      cbv zeta in Hfix.
      destruct (backfill (lookup "phone" (body req))
                  (lookup "age" (body req)) (lookup "gender" (body req))
                  found) as [u' changed].
      simpl in *. destruct Hfix as [Hid _].
      pose proof (findOne_In _ _ _ Hfind) as Hin.
      assert (Hsig : CallSign (token_claims (JOid (_id found)))
                       (secret jwtConfig) token_options
                     = CallSign claims key options).
      { destruct changed; simpl in Hcall;
          repeat (destruct Hcall as [ Hcall | Hcall ];
                  [ first [ discriminate Hcall | exact Hcall ] | ]);
          contradiction. }
      inversion Hsig; subst. clear Hsig.
      exists u'. rewrite Hid. split.
      { destruct changed.
        - apply (save_In found); [ exact Hin | congruence ].
        - rewrite (Hsame eq_refl). exact Hin. }
      repeat split. eexists _, _.
      split; [ reflexivity | ]. split; [ reflexivity | ].
      simpl. rewrite Hid. reflexivity.
    + destruct Hcall as [ H | [ H | [] ] ]; discriminate H.
    + destruct Hcall as [ H | [] ]; discriminate H.
    + destruct Hcall as [ H | [ H | [ H | [] ] ] ]; try discriminate H.
      inversion H; subst. clear H.
      eexists. split; [ apply in_or_app; right; left; reflexivity | ].
      simpl. repeat split. eexists _, _. repeat split.
    + destruct Hcall as [ H | [ H | [] ] ]; discriminate H.
  - destruct (truthy (lookup "email" (body req))) eqn:Te;
      [ destruct (truthy (lookup "password" (body req))) eqn:Tp | ].
    + destruct (findOne (lookup "email" (body req)) st) as [ u | ] eqn:F.
      * destruct (comparePassword (password u)
                    (lookup "password" (body req))) eqn:P.
        -- rewrite (login_success_path req st u Te Tp F P) in *.
           unfold calls_of, store_of, reply_of in *. simpl in *.
           destruct Hcall as [ H | [ H | [ H | [] ] ] ]; try discriminate H.
           inversion H; subst. clear H.
           exists u. split; [ apply (findOne_In _ _ _ F) | ].
           repeat split. eexists _, _. repeat split.
        -- rewrite (login_wrong_password_path req st u Te Tp F P) in Hcall.
           destruct Hcall as [ H | [ H | [] ] ]; discriminate H.
      * rewrite (login_unknown_email_path req st Te Tp F) in Hcall.
        destruct Hcall as [ H | [] ]; discriminate H.
    + rewrite (login_missing_fields_path req st (or_intror Tp)) in Hcall.
      destruct Hcall.
    + rewrite (login_missing_fields_path req st (or_introl Te)) in Hcall.
      destruct Hcall.
Qed.

(** C9.  In every successful response of [register], [login] and [getMe]
    the [user] object is a fixed projection of a stored record, with keys
    [id, name, email, role, phone] or [id, name, email, role, createdAt];
    no [password] key occurs in it or around it. *)
Theorem responses_omit_password
    (h : Request -> Store -> Reply * Store * list Call)
    (req : Request) (st : Store) (s : Z) (b : JsVal) :
  h = register \/ h = login \/ h = getMe ->
  reply_of (h req st) = Json s b ->
  exists u : User,
    In u (store_of (h req st)) /\
    (get "user" (get "data" b) =
       JObj [("id", JOid (_id u)); ("name", name u); ("email", email u);
             ("role", role u); ("phone", phone u)] \/
     get "user" (get "data" b) =
       JObj [("id", JOid (_id u)); ("name", name u); ("email", email u);
             ("role", role u); ("createdAt", createdAt u)]) /\
    has_key "password" (get "user" (get "data" b)) = false /\
    has_key "password" (get "data" b) = false /\
    has_key "password" b = false.
Proof.
  intros [ -> | [ -> | -> ] ] Hreply.
  - register_paths req st; unfold store_of, reply_of in *; simpl in *;
      try discriminate Hreply.
    + pose proof (backfill_fixed (lookup "phone" (body req))
                    (lookup "age" (body req)) (lookup "gender" (body req))
                    found) as Hfix.
      pose proof (backfill_unchanged (lookup "phone" (body req))
                    (lookup "age" (body req)) (lookup "gender" (body req))
                    found) as Hsame.
      cbv zeta in Hfix.
      destruct (backfill (lookup "phone" (body req))
                  (lookup "age" (body req)) (lookup "gender" (body req))
                  found) as [u' changed].
      simpl in *. destruct Hfix as [Hid _].
      pose proof (findOne_In _ _ _ Hfind) as Hin.
      inversion Hreply; subst. clear Hreply.
      exists u'. split.
      { destruct changed.
        - apply (save_In found); [ exact Hin | congruence ].
        - rewrite (Hsame eq_refl). exact Hin. }
      split; [ left; reflexivity | repeat split ].
    + inversion Hreply; subst. clear Hreply.
      eexists. split; [ apply in_or_app; right; left; reflexivity | ].
      split; [ left; reflexivity | repeat split ].
  - destruct (truthy (lookup "email" (body req))) eqn:Te;
      [ destruct (truthy (lookup "password" (body req))) eqn:Tp | ].
    + destruct (findOne (lookup "email" (body req)) st) as [ u | ] eqn:F.
      * destruct (comparePassword (password u)
                    (lookup "password" (body req))) eqn:P.
        -- rewrite (login_success_path req st u Te Tp F P) in *.
           unfold store_of, reply_of in *. simpl in *.
           inversion Hreply; subst. clear Hreply.
           exists u. split; [ apply (findOne_In _ _ _ F) | ].
           split; [ left; reflexivity | repeat split ].
        -- rewrite (login_wrong_password_path req st u Te Tp F P) in Hreply.
           discriminate Hreply.
      * rewrite (login_unknown_email_path req st Te Tp F) in Hreply.
        discriminate Hreply.
    + rewrite (login_missing_fields_path req st (or_intror Tp)) in Hreply.
      discriminate Hreply.
    + rewrite (login_missing_fields_path req st (or_introl Te)) in Hreply.
      discriminate Hreply.
  - destruct (find (fun r => Nat.eqb (_id r) (user_id req)) st)
      as [ u | ] eqn:F.
    + assert (Hby : findById (user_id req) st = Some (hide_password u))
        by (unfold findById; rewrite F; reflexivity).
      rewrite (getMe_found_path req st _ Hby) in *.
      unfold store_of, reply_of in *. simpl in *.
      inversion Hreply; subst. clear Hreply.
      exists u. split; [ apply find_some in F; tauto | ].
      split; [ right; reflexivity | repeat split ].
    + assert (Hby : findById (user_id req) st = None)
        by (unfold findById; rewrite F; reflexivity).
      rewrite (getMe_missing_path req st Hby) in Hreply.
      discriminate Hreply.
Qed.

End Claims.

(** ** The claims on the sample store *)

(** C7.  [getMe] for an id that resolves to no stored record: the lookup
    returns [null], reading [user._id] raises a [TypeError], and that
    exception, not an [AppError], is what reaches the error handler, which
    answers 500. *)
Theorem getMe_deleted_user_type_error :
  findById (user_id deleted_user_profile) sample_store = None /\
  getMe deleted_user_profile sample_store =
    (Next (TypeError "Cannot read properties of null (reading '_id')"),
     sample_store, [CallFindById 7]) /\
  (forall (m : string) (c : Z),
      reply_of (getMe deleted_user_profile sample_store)
      <> Next (AppError m c)) /\
  http_status (reply_of (getMe deleted_user_profile sample_store))
    = 500%Z.
Proof.
  split; [ reflexivity | ].
  split; [ reflexivity | ].
  split; [ intros m c H; discriminate H | reflexivity ].
Qed.

(** C2.  The recognised-duplicate path overwrites a field that is present
    on the record.  Alice's stored age is the number 0, not an absent
    value; she registers again with her password and the age 34: the
    answer is 200, the record is saved, and her stored age is 34. *)
Theorem register_duplicate_overwrites_stored_age_zero :
  findOne (lookup "email" (body alice_again)) sample_store = Some alice /\
  age alice = JNum 0 /\
  comparePassword (Collaborators:=sample) (password alice)
    (lookup "password" (body alice_again)) = true /\
  http_status (reply_of (register (C:=sample) alice_again sample_store))
    = 200%Z /\
  In (CallSave 1) (calls_of (register (C:=sample) alice_again sample_store))
  /\
  option_map age
    (findById 1 (store_of (register (C:=sample) alice_again sample_store)))
    = Some (JNum 34).
Proof.
  split; [ reflexivity | ]. split; [ reflexivity | ].
  split; [ reflexivity | ]. split; [ reflexivity | ].
  split; [ | reflexivity ].
  right. right. left. reflexivity.
Qed.

(** C4.  Backfill is not monotonic at a stored 0.  Dave registers with the
    age 0, which is stored; when he registers again with the same password
    and the age 41, the answer is 200 and the stored age 0 is overwritten
    with 41. *)
Theorem duplicate_registration_overwrites_set_age :
  http_status (reply_of (register (C:=sample) dave_new sample_store))
    = 201%Z /\
  option_map age
    (findById 3 (store_of (register (C:=sample) dave_new sample_store)))
    = Some (JNum 0) /\
  http_status
    (reply_of (register (C:=sample) dave_again
                 (store_of (register (C:=sample) dave_new sample_store))))
    = 200%Z /\
  option_map age
    (findById 3 (register_all (C:=sample) [dave_new; dave_again]
                   sample_store))
    = Some (JNum 41).
Proof.
  repeat split.
Qed.

(** C3, as first stated, fails: a registration for a new address that
    leaves out the name and the password is refused by the validation of
    the store; nothing is stored and the answer is not 201. *)
Lemma register_new_email_without_required_fields :
  findOne (lookup "email" (body dave_email_only)) sample_store = None /\
  reply_of (register (C:=sample) dave_email_only sample_store)
    = Next (ValidationError "User validation failed") /\
  store_of (register (C:=sample) dave_email_only sample_store)
    = sample_store /\
  (forall b : JsVal,
      reply_of (register (C:=sample) dave_email_only sample_store)
      <> Json 201 b).
Proof.
  split; [ reflexivity | ]. split; [ reflexivity | ].
  split; [ reflexivity | ]. intros b H. discriminate H.
Qed.

(** C1, as first stated, fails: a login for an unknown email that leaves the
    password out is answered 400, [Please provide email and password], not
    with the generic 401. *)
Lemma login_unknown_email_without_password :
  findOne (lookup "email" (body ghost_login_no_password)) sample_store = None /\
  reply_of (login (C:=sample) ghost_login_no_password sample_store) =
    Next (AppError "Please provide email and password" 400) /\
  reply_of (login (C:=sample) ghost_login_no_password sample_store) <>
    Next (AppError "Invalid credentials" 401) /\
  http_status (reply_of (login (C:=sample) ghost_login_no_password
                           sample_store)) <> 401%Z.
Proof.
  split; [ reflexivity | ].
  split; [ reflexivity | ].
  split; intros H; discriminate H.
Qed.

(** An unknown address and Alice with a wrong password get the same 401. *)
Lemma login_failures_indistinguishable_witness :
  reply_of (login (C:=sample) ghost_login sample_store) =
    Next (AppError "Invalid credentials" 401) /\
  reply_of (login (C:=sample) alice_wrong_password sample_store) =
    reply_of (login (C:=sample) ghost_login sample_store) /\
  http_status (reply_of (login (C:=sample) ghost_login sample_store))
    = 401%Z /\
  store_of (login (C:=sample) ghost_login sample_store) = sample_store /\
  store_of (login (C:=sample) alice_wrong_password sample_store)
    = sample_store.
Proof.
  apply (@login_failures_indistinguishable sample ghost_login
           alice_wrong_password sample_store sample_store alice);
    reflexivity.
Defined.

(** Alice registers again: her age, stored as 0, is overwritten; her phone
    is kept; the empty gender of the request is not written. *)
Lemma register_recognized_duplicate_witness :
  exists u' : User,
    phone u' = JStr "555-0100" /\ age u' = JNum 34 /\
    gender u' = JUndefined /\
    store_of (register (C:=sample) alice_again sample_store)
      = save u' sample_store /\
    map email (store_of (register (C:=sample) alice_again sample_store))
      = map email sample_store.
Proof.
  destruct (@register_recognized_duplicate sample alice_again sample_store
              alice eq_refl eq_refl eq_refl eq_refl)
    as [u' [_ [Hp [Ha [Hg [Hst [_ [_ [_ [_ [_ [_ Hem]]]]]]]]]]]].
  exists u'. repeat split; assumption.
Defined.

(** Carol is new: one document is appended, and the answer is 201. *)
Lemma register_new_user_created_witness :
  exists u : User,
    store_of (register (C:=sample) carol_new sample_store)
      = sample_store ++ [u] /\
    email u = JStr "carol@example.com" /\
    password u = JStr "hashed:singer" /\
    http_status (reply_of (register (C:=sample) carol_new sample_store))
      = 201%Z.
Proof.
  destruct (@register_new_user_created sample carol_new sample_store
              eq_refl eq_refl eq_refl eq_refl)
    as [u [Hst [_ [_ [_ [He [Hp [_ [_ [_ [Hr _]]]]]]]]]]].
  exists u.
  split; [ exact Hst | ]. split; [ exact He | ]. split; [ exact Hp | ].
  rewrite Hr. reflexivity.
Defined.

(** Through four registrations, two of them recognised duplicates with
    other contact details, Alice's phone stays what it was. *)
Lemma backfill_monotonic_witness :
  exists u' : User,
    In u' (register_all (C:=sample)
             [alice_again; bob_again; alice_wrong_password; carol_new;
              alice_again]
             sample_store) /\
    _id u' = 1 /\ phone u' = JStr "555-0100".
Proof.
  destruct (@backfill_monotonic sample
              [alice_again; bob_again; alice_wrong_password; carol_new;
               alice_again]
              sample_store alice eq_refl (or_introl eq_refl))
    as [_ [u' [Hin [Hid [Hp _]]]]].
  exists u'. repeat split; [ exact Hin | exact Hid | exact (Hp eq_refl) ].
Defined.

(** Alice with a wrong password on the registration form. *)
Lemma register_wrong_password_rejected_witness :
  http_status (reply_of (register (C:=sample) alice_wrong_password
                           sample_store)) = 400%Z /\
  store_of (register (C:=sample) alice_wrong_password sample_store)
    = sample_store.
Proof.
  destruct (@register_wrong_password_rejected sample alice_wrong_password
              sample_store alice eq_refl eq_refl eq_refl)
    as [_ [Hs [Hst _]]].
  split; assumption.
Defined.

(** Alice with no password on the registration form. *)
Lemma register_no_password_rejected_witness :
  http_status (reply_of (register (C:=sample) alice_no_password
                           sample_store)) = 400%Z /\
  store_of (register (C:=sample) alice_no_password sample_store)
    = sample_store /\
  calls_of (register (C:=sample) alice_no_password sample_store)
    = [CallFindOne (JStr "alice@example.com")].
Proof.
  destruct (@register_no_password_rejected sample alice_no_password
              sample_store alice eq_refl eq_refl)
    as [_ [Hs [Hst [Hc _]]]].
  repeat split; assumption.
Defined.

(** The token signed when Alice registers again carries her id only. *)
Lemma minted_token_claims_witness :
  exists u : User,
    In u (store_of (register (C:=sample) alice_again sample_store)) /\
    JObj [("id", JOid 1)] = JObj [("id", JOid (_id u))] /\
    keys (JObj [("id", JOid 1)]) = ["id"].
Proof.
  destruct (@minted_token_claims sample register alice_again sample_store
              (JObj [("id", JOid 1)]) (JStr "s3cret")
              (JObj [("expiresIn", JStr "7d")])
              (or_introl eq_refl)
              (or_intror (or_intror (or_intror (or_introl eq_refl)))))
    as [u [Hin [Hc [_ [_ [Hk _]]]]]].
  exists u. repeat split; assumption.
Defined.

(** Alice's profile, as [getMe] returns it. *)
Lemma responses_omit_password_witness :
  has_key "password"
    (get "user" (get "data"
       (JObj [("success", JBool true);
              ("data", JObj [("user", profile_view alice)])]))) = false.
Proof.
  destruct (@responses_omit_password sample getMe alice_profile
              sample_store 200
              (JObj [("success", JBool true);
                     ("data", JObj [("user", profile_view alice)])])
              (or_intror (or_intror eq_refl)) eq_refl)
    as [u [_ [_ [Hk _]]]].
  exact Hk.
Defined.

(** Bob registers again: his phone, stored as the empty string, is
    overwritten; the age 0 of the request is not written; his gender is
    kept. *)
Lemma backfill_iff_truthy_request_falsy_stored_witness :
  exists u' : User,
    find (fun r => Nat.eqb (_id r) 2)
         (store_of (register (C:=sample) bob_again sample_store)) = Some u' /\
    phone u' = JStr "555-0142" /\ age u' = JUndefined /\
    gender u' = JStr "male".
Proof.
  destruct (@backfill_iff_truthy_request_falsy_stored sample bob_again
              sample_store bob eq_refl eq_refl eq_refl eq_refl)
    as [u' [Hf [Hp [Ha [Hg _]]]]].
  exists u'. repeat split; assumption.
Defined.

(** * Further properties of the handlers *)

(** ** More on JavaScript values *)

Fixpoint js_eqb_eq (a b : JsVal) : js_eqb a b = true -> a = b.
Proof.
  destruct a as [ | | x | x | x | x | xs | ps ],
           b as [ | | y | y | y | y | ys | qs ];
    simpl; intros H; try discriminate H; try reflexivity.
  - apply Bool.eqb_prop in H. congruence.
  - apply Z.eqb_eq in H. congruence.
  - apply String.eqb_eq in H. congruence.
  - apply Nat.eqb_eq in H. congruence.
  - f_equal. revert xs ys H. fix IH 1.
    intros [ | x xs ] [ | y ys ] H; try discriminate H.
    + reflexivity.
    + apply andb_true_iff in H. destruct H as [H1 H2].
      f_equal; [ apply js_eqb_eq; exact H1 | apply IH; exact H2 ].
  - f_equal. revert ps qs H. fix IH 1.
    intros [ | [k x] ps ] [ | [l y] qs ] H; try discriminate H.
    + reflexivity.
    + apply andb_true_iff in H. destruct H as [H12 H3].
      apply andb_true_iff in H12. destruct H12 as [H1 H2].
      apply String.eqb_eq in H1. subst l.
      f_equal; [ f_equal; apply js_eqb_eq; exact H2 | apply IH; exact H3 ].
Qed.

Lemma findOne_email (e : JsVal) (st : Store) (u : User) :
  findOne e st = Some u -> email u = e.
Proof.
  unfold findOne. intros H. apply find_some in H.
  apply js_eqb_eq. tauto.
Qed.

Lemma map_fixed {A : Type} (g : A -> A) (l : list A) :
  map g l = l -> forall x, In x l -> g x = x.
Proof.
  induction l as [ | a l IH ]; simpl; intros H x Hx.
  - contradiction.
  - injection H as Ha Hl. destruct Hx as [Hx | Hx].
    + subst. exact Ha.
    + apply IH; assumption.
Qed.

(** ** More on the store *)

Lemma find_app_some {A : Type} (f : A -> bool) (l l' : list A) (x : A) :
  find f l = Some x -> find f (l ++ l') = Some x.
Proof.
  induction l as [ | a l IH ]; simpl.
  - discriminate.
  - destruct (f a); [ tauto | exact IH ].
Qed.

Lemma find_map_same {A : Type} (p : A -> bool) (g : A -> A) (l : list A) :
  (forall x, In x l -> p (g x) = p x) ->
  find p (map g l) = option_map g (find p l).
Proof.
  induction l as [ | a l IH ]; simpl; intros H.
  - reflexivity.
  - rewrite (H a (or_introl eq_refl)).
    destruct (p a); [ reflexivity | ].
    apply IH. intros x Hx. apply H. right. exact Hx.
Qed.

Lemma findOne_save (e : JsVal) (u u' : User) (st : Store) :
  unique_ids st = true -> In u st ->
  _id u' = _id u -> email u' = email u ->
  findOne e (save u' st) =
  option_map (fun r => if Nat.eqb (_id r) (_id u') then u' else r)
             (findOne e st).
Proof.
  intros Hu Hin Hid Hem. unfold findOne, save.
  apply find_map_same. intros x Hx.
  destruct (Nat.eqb (_id x) (_id u')) eqn:E; [ | reflexivity ].
  apply Nat.eqb_eq in E.
  assert (x = u) by (apply (unique_ids_same st); congruence).
  subst x. rewrite Hem. reflexivity.
Qed.

Lemma findOne_created (e : JsVal) (u : User) (st : Store) :
  findOne e st = None -> email u = e -> findOne e (st ++ [u]) = Some u.
Proof.
  intros H He. unfold findOne in *. rewrite (find_snoc _ _ _ H).
  rewrite He, js_eqb_refl. reflexivity.
Qed.

Lemma find_id_created (u : User) (st : Store) :
  _id u = fresh_id st ->
  find (fun r => Nat.eqb (_id r) (_id u)) (st ++ [u]) = Some u.
Proof.
  intros Hid.
  assert (Hnone : find (fun r => Nat.eqb (_id r) (_id u)) st = None).
  { destruct (find (fun r => Nat.eqb (_id r) (_id u)) st) as [ r | ] eqn:F;
      [ | reflexivity ].
    apply find_some in F. destruct F as [Hr E]. apply Nat.eqb_eq in E.
    apply fresh_id_above in Hr. lia. }
  rewrite (find_snoc _ _ _ Hnone), Nat.eqb_refl. reflexivity.
Qed.

Lemma email_keyed_spec (st : Store) :
  unique_ids st = true ->
  (email_keyed st = true <->
   forall r, In r st -> findOne (email r) st = Some r).
Proof.
  intros Hu. unfold email_keyed. rewrite forallb_forall. split.
  - intros H r Hr. specialize (H r Hr).
    destruct (findOne (email r) st) as [ r' | ] eqn:F; [ | discriminate ].
    apply Nat.eqb_eq in H. f_equal.
    apply (unique_ids_same st); try assumption.
    apply (findOne_In _ _ _ F).
  - intros H r Hr. rewrite (H r Hr). apply Nat.eqb_refl.
Qed.

Lemma wf_store_spec (st : Store) :
  wf_store st = true <->
  unique_ids st = true /\
  forall r, In r st -> findOne (email r) st = Some r.
Proof.
  unfold wf_store. rewrite andb_true_iff. split.
  - intros [Hu Hk]. split; [ exact Hu | ].
    apply email_keyed_spec; assumption.
  - intros [Hu Hk]. split; [ exact Hu | ].
    apply email_keyed_spec; assumption.
Qed.

Lemma wf_store_create (u : User) (st : Store) :
  wf_store st = true -> _id u = fresh_id st ->
  findOne (email u) st = None ->
  wf_store (st ++ [u]) = true.
Proof.
  rewrite !wf_store_spec. intros [Hu Hk] Hid Hnone. split.
  - apply unique_ids_create; assumption.
  - intros r Hr. apply in_app_or in Hr. destruct Hr as [Hr | [Hr | []]].
    + unfold findOne. apply find_app_some. apply Hk. exact Hr.
    + subst r. apply findOne_created; [ exact Hnone | reflexivity ].
Qed.

Lemma wf_store_save (u u' : User) (st : Store) :
  wf_store st = true -> In u st ->
  _id u' = _id u -> email u' = email u ->
  wf_store (save u' st) = true.
Proof.
  rewrite !wf_store_spec. intros [Hu Hk] Hin Hid Hem. split.
  - apply unique_ids_save. exact Hu.
  - intros r' Hr'. unfold save in Hr'. apply in_map_iff in Hr'.
    destruct Hr' as [r [Hg Hr]].
    rewrite (findOne_save _ u u' st Hu Hin Hid Hem).
    assert (He : email r' = email r).
    { subst r'. destruct (Nat.eqb (_id r) (_id u')) eqn:E; [ | reflexivity ].
      apply Nat.eqb_eq in E.
      assert (r = u) by (apply (unique_ids_same st); congruence).
      congruence. }
    rewrite He, (Hk r Hr). simpl. rewrite Hg. reflexivity.
Qed.

Lemma fills_self (v : JsVal) : fills v v = false.
Proof.
  unfold fills. destruct (truthy v); reflexivity.
Qed.

Lemma backfill_again (p a g : JsVal) (u : User) :
  snd (backfill p a g (fst (backfill p a g u))) = false.
Proof.
  rewrite backfill_flag.
  destruct (backfill_fields p a g u) as [Hp [Ha Hg]].
  rewrite Hp, Ha, Hg.
  destruct (fills p (phone u)) eqn:Fp, (fills a (age u)) eqn:Fa,
    (fills g (gender u)) eqn:Fg;
    rewrite ?fills_self, ?Fp, ?Fa, ?Fg; reflexivity.
Qed.

(** Splits a goal about [login req st] along the five paths of the handler
    and rewrites the call with the outcome of each. *)
Ltac login_paths req st :=
  let u := fresh "found" in
  let Te := fresh "Hemail" in
  let Tp := fresh "Hpw" in
  let F := fresh "Hfind" in
  let P := fresh "Hcmp" in
  let E := fresh "Hrun" in
  destruct (truthy (lookup "email" (body req))) eqn:Te;
  [ destruct (truthy (lookup "password" (body req))) eqn:Tp;
    [ destruct (findOne (lookup "email" (body req)) st) as [ u | ] eqn:F;
      [ destruct (comparePassword (password u)
                    (lookup "password" (body req))) eqn:P;
        [ pose proof (login_success_path req st u Te Tp F P) as E
        | pose proof (login_wrong_password_path req st u Te Tp F P) as E ]
      | pose proof (login_unknown_email_path req st Te Tp F) as E ]
    | pose proof (login_missing_fields_path req st (or_intror Tp)) as E ]
  | pose proof (login_missing_fields_path req st (or_introl Te)) as E ];
  rewrite E in *.

(** Splits a goal about [getMe req st] on whether the id resolves. *)
Ltac getMe_paths req st :=
  let u := fresh "found" in
  let F := fresh "Hfind" in
  let B := fresh "Hby" in
  let E := fresh "Hrun" in
  destruct (find (fun r => Nat.eqb (_id r) (user_id req)) st)
    as [ u | ] eqn:F;
  [ assert (B : findById (user_id req) st = Some (hide_password u))
      by (unfold findById; rewrite F; reflexivity);
    pose proof (getMe_found_path req st _ B) as E
  | assert (B : findById (user_id req) st = None)
      by (unfold findById; rewrite F; reflexivity);
    pose proof (getMe_missing_path req st B) as E ];
  rewrite E in *.

(** Names the record and the flag that the backfill of [u] with the fields
    of [req] yields, with what is known of them. *)
Ltac backfill_cases req u :=
  pose proof (backfill_fixed (lookup "phone" (body req))
                (lookup "age" (body req)) (lookup "gender" (body req)) u)
    as Hfix;
  pose proof (backfill_unchanged (lookup "phone" (body req))
                (lookup "age" (body req)) (lookup "gender" (body req)) u)
    as Hsame;
  pose proof (backfill_again (lookup "phone" (body req))
                (lookup "age" (body req)) (lookup "gender" (body req)) u)
    as Hagain;
  cbv zeta in Hfix;
  destruct (backfill (lookup "phone" (body req)) (lookup "age" (body req))
              (lookup "gender" (body req)) u) as [filled changed];
  simpl in *.

Section Further.

Context {C : Collaborators}.

(** X1.  [login] answers with a JSON body exactly when the request carries
    a truthy email and password, the email finds a stored user and the
    password verifies against that user's hash; the answer is then 200 with
    that user's view. *)
Theorem login_succeeds_iff (req : Request) (st : Store) :
  (is_json (reply_of (login req st)) = true <->
   truthy (lookup "email" (body req)) = true /\
   truthy (lookup "password" (body req)) = true /\
   exists u : User,
     findOne (lookup "email" (body req)) st = Some u /\
     comparePassword (password u) (lookup "password" (body req)) = true) /\
  (forall (s : Z) (b : JsVal),
      reply_of (login req st) = Json s b ->
      s = 200%Z /\
      exists u : User,
        findOne (lookup "email" (body req)) st = Some u /\
        get "user" (get "data" b) = user_view u /\
        get "message" b = JStr "Login successful").
Proof.
  login_paths req st; unfold reply_of; simpl; split.
  - split; [ intros _ | reflexivity ].
    split; [ reflexivity | ]. split; [ reflexivity | ].
    exists found. split; [ reflexivity | exact Hcmp ].
  - intros s b H. inversion H; subst. split; [ reflexivity | ].
    exists found. repeat split.
  - split; [ discriminate | ].
    intros [_ [_ [u [Hu Hc]]]]. inversion Hu; subst. congruence.
  - intros s b H. discriminate H.
  - split; [ discriminate | ].
    intros [_ [_ [u [Hu _]]]]. discriminate Hu.
  - intros s b H. discriminate H.
  - split; [ discriminate | ]. intros [_ [H _]]. discriminate H.
  - intros s b H. discriminate H.
  - split; [ discriminate | ]. intros [H _]. discriminate H.
  - intros s b H. discriminate H.
Qed.

(** X2.  [login] reaches the store exactly when both an email and a
    password are supplied: with either missing the call log is empty, and
    otherwise it starts with the lookup of the request's email. *)
Theorem login_lookup_iff_both_supplied (req : Request) (st : Store) :
  (calls_of (login req st) = [] <->
   truthy (lookup "email" (body req)) = false \/
   truthy (lookup "password" (body req)) = false) /\
  (calls_of (login req st) <> [] ->
   hd_error (calls_of (login req st))
     = Some (CallFindOne (lookup "email" (body req)))).
Proof.
  login_paths req st; unfold calls_of; simpl; split;
    try (intros _; reflexivity);
    try (intros H; exfalso; apply H; reflexivity);
    try (split; [ discriminate | intros [ H | H ]; discriminate H ]).
  - split; [ intros _; right; reflexivity | reflexivity ].
  - split; [ intros _; left; reflexivity | reflexivity ].
Qed.

(** X3.  [login] and [getMe] are read-only: whatever the request, the
    store afterwards is the store before, and neither [save] nor [create]
    is called. *)
Theorem login_and_getMe_never_write (req : Request) (st : Store) :
  store_of (login req st) = st /\
  count is_write (calls_of (login req st)) = 0 /\
  store_of (getMe req st) = st /\
  count is_write (calls_of (getMe req st)) = 0.
Proof.
  split; [ | split ].
  - login_paths req st; reflexivity.
  - login_paths req st; reflexivity.
  - getMe_paths req st; split; reflexivity.
Qed.

(** X4.  A token is signed exactly on success: [register] and [login] call
    the signer once when they answer with a JSON body and not at all when
    they forward an error; [getMe] never signs. *)
Theorem token_signed_iff_success (req : Request) (st : Store) :
  count is_sign (calls_of (register req st))
    = (if is_json (reply_of (register req st)) then 1 else 0) /\
  count is_sign (calls_of (login req st))
    = (if is_json (reply_of (login req st)) then 1 else 0) /\
  count is_sign (calls_of (getMe req st)) = 0.
Proof.
  split; [ | split ].
  - register_paths req st; unfold calls_of, reply_of; simpl;
      try reflexivity.
    destruct (snd (backfill _ _ _ found)); reflexivity.
  - login_paths req st; reflexivity.
  - getMe_paths req st; reflexivity.
Qed.

(** X5.  A password is verified only when one is supplied: every call to
    [comparePassword] made by [register] or [login] is for the user that
    the request's email finds, and its candidate is the request's password,
    which is truthy. *)
Theorem password_compared_only_when_supplied
    (h : Request -> Store -> Reply * Store * list Call)
    (req : Request) (st : Store) (i : nat) (c : JsVal) :
  h = register \/ h = login ->
  In (CallComparePassword i c) (calls_of (h req st)) ->
  c = lookup "password" (body req) /\
  truthy c = true /\
  exists u : User,
    findOne (lookup "email" (body req)) st = Some u /\ _id u = i.
Proof.
  intros [ -> | -> ] Hcall.
  - register_paths req st; unfold calls_of in Hcall; simpl in Hcall.
    + destruct Hcall as [ H | [ H | H ] ]; try discriminate H.
      * inversion H; subst. repeat split; try assumption.
        exists found. split; reflexivity.
      * exfalso. destruct (snd (backfill _ _ _ found)); simpl in H;
          repeat (destruct H as [ H | H ]; [ discriminate H | ]);
          contradiction.
    + destruct Hcall as [ H | [ H | [] ] ]; try discriminate H.
      inversion H; subst. repeat split; try assumption.
      exists found. split; reflexivity.
    + destruct Hcall as [ H | [] ]; discriminate H.
    + destruct Hcall as [ H | [ H | [ H | [] ] ] ]; discriminate H.
    + destruct Hcall as [ H | [ H | [] ] ]; discriminate H.
  - login_paths req st; unfold calls_of in Hcall; simpl in Hcall.
    + destruct Hcall as [ H | [ H | [ H | [] ] ] ]; try discriminate H.
      inversion H; subst. repeat split; try assumption.
      exists found. split; reflexivity.
    + destruct Hcall as [ H | [ H | [] ] ]; try discriminate H.
      inversion H; subst. repeat split; try assumption.
      exists found. split; reflexivity.
    + destruct Hcall as [ H | [] ]; discriminate H.
    + destruct Hcall.
    + destruct Hcall.
Qed.

(** X6.  The status codes the handlers choose: a JSON answer of [register]
    has status 200 or 201 and an [AppError] it forwards has status 400; a
    JSON answer of [login] has status 200 and an [AppError] it forwards has
    status 400 or 401; a JSON answer of [getMe] has status 200, and [getMe]
    forwards no [AppError]. *)
Theorem handler_status_codes (req : Request) (st : Store) :
  (forall (s : Z) (b : JsVal),
      reply_of (register req st) = Json s b -> s = 200%Z \/ s = 201%Z) /\
  (forall (m : string) (c : Z),
      reply_of (register req st) = Next (AppError m c) -> c = 400%Z) /\
  (forall (s : Z) (b : JsVal),
      reply_of (login req st) = Json s b -> s = 200%Z) /\
  (forall (m : string) (c : Z),
      reply_of (login req st) = Next (AppError m c) ->
      c = 400%Z \/ c = 401%Z) /\
  (forall (s : Z) (b : JsVal),
      reply_of (getMe req st) = Json s b -> s = 200%Z) /\
  (forall (m : string) (c : Z),
      reply_of (getMe req st) <> Next (AppError m c)).
Proof.
  split; [ | split; [ | split; [ | split; [ | split ] ] ] ].
  - intros s b H.
    register_paths req st; unfold reply_of in H; simpl in H;
      inversion H; subst; tauto.
  - intros m c H.
    register_paths req st; unfold reply_of in H; simpl in H;
      inversion H; subst; reflexivity.
  - intros s b H.
    login_paths req st; unfold reply_of in H; simpl in H;
      inversion H; subst; reflexivity.
  - intros m c H.
    login_paths req st; unfold reply_of in H; simpl in H;
      inversion H; subst; tauto.
  - intros s b H.
    getMe_paths req st; unfold reply_of in H; simpl in H;
      inversion H; subst; reflexivity.
  - intros m c H.
    getMe_paths req st; unfold reply_of in H; simpl in H;
      discriminate H.
Qed.

(** One registration keeps the store well formed. *)
Lemma register_keeps_wf (req : Request) (st : Store) :
  wf_store st = true -> wf_store (store_of (register req st)) = true.
Proof.
  intros Hwf.
  register_paths req st; unfold store_of; simpl; try exact Hwf.
  - backfill_cases req found. destruct changed; [ | exact Hwf ].
    apply (wf_store_save found); try tauto.
    apply (findOne_In _ _ _ Hfind).
  - apply wf_store_create; [ exact Hwf | reflexivity | exact Hfind ].
Qed.

(** X7.  Registrations keep the store well formed: after any run of
    [register] on a store with unique ids in which every record is found
    by its own email, ids are still unique and every record is still the
    one a lookup by its email returns, so no email has two records. *)
Theorem register_all_keeps_wf (reqs : list Request) (st : Store) :
  wf_store st = true ->
  wf_store (register_all reqs st) = true /\
  forall r : User,
    In r (register_all reqs st) ->
    findOne (email r) (register_all reqs st) = Some r.
Proof.
  intros Hwf.
  assert (H : wf_store (register_all reqs st) = true).
  { revert st Hwf. induction reqs as [ | req reqs IH ]; intros st Hwf.
    - exact Hwf.
    - simpl. apply IH. apply register_keeps_wf. exact Hwf. }
  split; [ exact H | ].
  apply wf_store_spec in H. tauto.
Qed.

(** One registration keeps the identity of every stored record. *)
Lemma register_keeps_identity (req : Request) (st : Store) (u : User) :
  unique_ids st = true -> In u st ->
  unique_ids (store_of (register req st)) = true /\
  exists u' : User,
    In u' (store_of (register req st)) /\
    _id u' = _id u /\ name u' = name u /\ email u' = email u /\
    password u' = password u /\ role u' = role u /\
    createdAt u' = createdAt u.
Proof.
  intros Hu Hin.
  assert (Hself : exists u' : User,
             In u' st /\
             _id u' = _id u /\ name u' = name u /\ email u' = email u /\
             password u' = password u /\ role u' = role u /\
             createdAt u' = createdAt u).
  { exists u. tauto. }
  register_paths req st; unfold store_of; simpl;
    try (split; [ exact Hu | exact Hself ]).
  - backfill_cases req found.
    destruct changed; [ | split; [ exact Hu | exact Hself ] ].
    split; [ apply unique_ids_save; exact Hu | ].
    destruct (Nat.eq_dec (_id u) (_id found)) as [Heq | Hne].
    + assert (u = found).
      { apply (unique_ids_same st); try assumption.
        apply (findOne_In _ _ _ Hfind). }
      subst found. exists filled. split; [ | exact Hfix ].
      apply (save_In u); [ exact Hin | symmetry; tauto ].
    + exists u. split; [ | tauto ].
      apply save_other; [ exact Hin | ].
      destruct Hfix as [Hid _]. congruence.
  - split; [ apply unique_ids_create; [ exact Hu | reflexivity ] | ].
    exists u. split; [ apply in_or_app; left; exact Hin | tauto ].
Qed.

(** X8.  Registration never rewrites an account: through any run of
    [register], a stored record stays in the store under its id with the
    same name, email, password hash, role and creation time. *)
Theorem register_all_keeps_identity
    (reqs : list Request) (st : Store) (u : User) :
  unique_ids st = true -> In u st ->
  exists u' : User,
    In u' (register_all reqs st) /\
    _id u' = _id u /\ name u' = name u /\ email u' = email u /\
    password u' = password u /\ role u' = role u /\
    createdAt u' = createdAt u.
Proof.
  revert st u. induction reqs as [ | req reqs IH ]; intros st u Hu Hin.
  - exists u. simpl. tauto.
  - simpl.
    destruct (register_keeps_identity req st u Hu Hin)
      as [Hu1 [u1 [Hin1 [Hi1 [Hn1 [He1 [Hp1 [Hr1 Hc1]]]]]]]].
    destruct (IH _ u1 Hu1 Hin1)
      as [u2 [Hin2 [Hi2 [Hn2 [He2 [Hp2 [Hr2 Hc2]]]]]]].
    exists u2. split; [ exact Hin2 | ].
    repeat split; congruence.
Qed.

(** A 201 comes from the creation path only. *)
Lemma register_created_inv (req : Request) (st : Store) (b : JsVal) :
  reply_of (register req st) = Json 201 b ->
  findOne (lookup "email" (body req)) st = None /\
  required_present (create_fields req) = true.
Proof.
  intros H.
  register_paths req st; unfold reply_of in H; simpl in H;
    try discriminate H.
  split; reflexivity.
Qed.

(** X9.  Registering twice with the same body: when the first call created
    the account (201), the password is truthy and the hash of a password
    verifies that password, the second call is answered 200 with the
    [Existing patient recognized] message and the same user view, writes
    nothing and leaves the store as the first call left it. *)
Theorem register_again_is_recognized
    (req : Request) (st : Store) (b : JsVal) :
  reply_of (register req st) = Json 201 b ->
  truthy (lookup "password" (body req)) = true ->
  comparePassword (hashPassword (lookup "password" (body req)))
                  (lookup "password" (body req)) = true ->
  exists b2 : JsVal,
    reply_of (register req (store_of (register req st))) = Json 200 b2 /\
    get "message" b2
      = JStr "Existing patient recognized. Logged in successfully." /\
    get "user" (get "data" b2) = get "user" (get "data" b) /\
    store_of (register req (store_of (register req st)))
      = store_of (register req st) /\
    count is_write (calls_of (register req (store_of (register req st))))
      = 0.
Proof.
  intros H201 T P.
  destruct (register_created_inv req st b H201) as [Hnone Hvalid].
  pose proof (register_new_path req st Hnone Hvalid) as E1. cbv zeta in E1.
  rewrite E1 in *. unfold reply_of, store_of in *. simpl in *.
  inversion H201; subst b. clear H201.
  match goal with
  | |- context [ st ++ [?x] ] => set (u := x) in *
  end.
  assert (F : findOne (lookup "email" (body req)) (st ++ [u]) = Some u)
    by (apply findOne_created; [ exact Hnone | reflexivity ]).
  pose proof (register_recognized_path req (st ++ [u]) u F T P) as E2.
  cbv zeta in E2.
  assert (Hflag : snd (backfill (lookup "phone" (body req))
                         (lookup "age" (body req))
                         (lookup "gender" (body req)) u) = false).
  { rewrite backfill_flag. unfold u. simpl. rewrite !fills_self.
    reflexivity. }
  pose proof (backfill_unchanged _ _ _ _ Hflag) as Hsame.
  rewrite Hflag, Hsame in E2. rewrite E2. simpl.
  eexists. repeat split.
Qed.

(** X10.  Logging in after registering: when [register] created the
    account (201), email and password are truthy and the hash of a password
    verifies that password, [login] with the same email and password on the
    resulting store answers 200 with the same user view, and the claims it
    signs carry the id that the registration returned. *)
Theorem login_after_register (req : Request) (st : Store) (b : JsVal) :
  reply_of (register req st) = Json 201 b ->
  truthy (lookup "email" (body req)) = true ->
  truthy (lookup "password" (body req)) = true ->
  comparePassword (hashPassword (lookup "password" (body req)))
                  (lookup "password" (body req)) = true ->
  exists b2 : JsVal,
    reply_of (login req (store_of (register req st))) = Json 200 b2 /\
    get "user" (get "data" b2) = get "user" (get "data" b) /\
    In (CallSign (JObj [("id", get "id" (get "user" (get "data" b)))])
                 (secret jwtConfig)
                 (JObj [("expiresIn", expiresIn jwtConfig)]))
       (calls_of (login req (store_of (register req st)))).
Proof.
  intros H201 Te Tp P.
  destruct (register_created_inv req st b H201) as [Hnone Hvalid].
  pose proof (register_new_path req st Hnone Hvalid) as E1. cbv zeta in E1.
  rewrite E1 in *. unfold reply_of, store_of, calls_of in *. simpl in *.
  inversion H201; subst b. clear H201.
  match goal with
  | |- context [ st ++ [?x] ] => set (u := x) in *
  end.
  assert (F : findOne (lookup "email" (body req)) (st ++ [u]) = Some u)
    by (apply findOne_created; [ exact Hnone | reflexivity ]).
  rewrite (login_success_path req (st ++ [u]) u Te Tp F P). simpl.
  eexists. split; [ reflexivity | ]. split; [ reflexivity | ].
  right. right. left. reflexivity.
Qed.

(** X11.  The recognised-duplicate path is idempotent: after one
    recognised registration, the same request again is answered 200 with
    the same user view, calls neither [save] nor [create], and leaves the
    store unchanged. *)
Theorem recognized_again_writes_nothing
    (req : Request) (st : Store) (u : User) :
  unique_ids st = true ->
  findOne (lookup "email" (body req)) st = Some u ->
  truthy (lookup "password" (body req)) = true ->
  comparePassword (password u) (lookup "password" (body req)) = true ->
  exists b1 b2 : JsVal,
    reply_of (register req st) = Json 200 b1 /\
    reply_of (register req (store_of (register req st))) = Json 200 b2 /\
    get "user" (get "data" b2) = get "user" (get "data" b1) /\
    store_of (register req (store_of (register req st)))
      = store_of (register req st) /\
    count is_write (calls_of (register req (store_of (register req st))))
      = 0.
Proof.
  intros Hu F T P.
  pose proof (register_recognized_path req st u F T P) as E1.
  cbv zeta in E1. rewrite E1. clear E1.
  pose proof (findOne_In _ _ _ F) as Hin.
  backfill_cases req u.
  destruct Hfix as [Hid [_ [Hem [Hpw _]]]].
  unfold reply_of, store_of, calls_of. simpl.
  assert (F1 : findOne (lookup "email" (body req))
                 (if changed then save filled st else st) = Some filled).
  { destruct changed.
    - rewrite (findOne_save _ u filled st Hu Hin Hid Hem), F. simpl.
      rewrite Hid, Nat.eqb_refl. reflexivity.
    - rewrite (Hsame eq_refl). exact F. }
  assert (P1 : comparePassword (password filled)
                 (lookup "password" (body req)) = true)
    by (rewrite Hpw; exact P).
  pose proof (register_recognized_path req _ filled F1 T P1) as E2.
  cbv zeta in E2.
  pose proof (backfill_unchanged _ _ _ _ Hagain) as Hsame2.
  rewrite Hagain, Hsame2 in E2. rewrite E2. simpl.
  eexists _, _. repeat split.
Qed.

(** X12.  [getMe] answers with a JSON body exactly when the authenticated
    id is the id of a stored record; for any other id it forwards the
    [TypeError] of the failed property read. *)
Theorem getMe_succeeds_iff (req : Request) (st : Store) :
  (is_json (reply_of (getMe req st)) = true <->
   In (user_id req) (map _id st)) /\
  (~ In (user_id req) (map _id st) ->
   exists m : string, reply_of (getMe req st) = Next (TypeError m)).
Proof.
  getMe_paths req st; unfold reply_of; simpl.
  - apply find_some in Hfind. destruct Hfind as [Hin E].
    apply Nat.eqb_eq in E.
    assert (In (user_id req) (map _id st))
      by (rewrite <- E; apply in_map; exact Hin).
    split; [ tauto | ]. intros Hn. contradiction.
  - assert (Hn : ~ In (user_id req) (map _id st)).
    { intros Hi. apply in_map_iff in Hi. destruct Hi as [r [Hr Hin]].
      pose proof (find_none _ _ Hfind r Hin) as E. simpl in E.
      rewrite Hr, Nat.eqb_refl in E. discriminate. }
    split.
    + split; [ discriminate | intros Hi; contradiction ].
    + intros _. eexists. reflexivity.
Qed.

(** X13.  The profile after registering: when [register] created the
    account (201), [getMe] for the id in that response, on the resulting
    store, answers 200 with the name and email of the request and the role
    of the response. *)
Theorem getMe_after_register
    (req rq : Request) (st : Store) (b : JsVal) :
  reply_of (register req st) = Json 201 b ->
  get "id" (get "user" (get "data" b)) = JOid (user_id rq) ->
  reply_of (getMe rq (store_of (register req st))) =
    Json 200
      (JObj [("success", JBool true);
             ("data",
              JObj [("user",
                     JObj [("id", JOid (user_id rq));
                           ("name", lookup "name" (body req));
                           ("email", lookup "email" (body req));
                           ("role", get "role" (get "user" (get "data" b)));
                           ("createdAt", now)])])]).
Proof.
  intros H201 Hid.
  destruct (register_created_inv req st b H201) as [Hnone Hvalid].
  pose proof (register_new_path req st Hnone Hvalid) as E1. cbv zeta in E1.
  rewrite E1 in *. unfold reply_of, store_of in *. simpl in *.
  inversion H201; subst b. clear H201. simpl in Hid.
  inversion Hid as [Hfresh]. clear Hid.
  match goal with
  | |- context [ st ++ [?x] ] => set (u := x) in *
  end.
  assert (Hby : findById (user_id rq) (st ++ [u]) = Some (hide_password u)).
  { unfold findById. rewrite <- Hfresh.
    change (fresh_id st) with (_id u).
    rewrite (find_id_created u st eq_refl). reflexivity. }
  rewrite (getMe_found_path rq _ _ Hby). reflexivity.
Qed.

(** X14.  Records are never removed and at most one is added: the ids in
    the store after [register] are the ids before, followed by one fresh id
    exactly when the answer is 201. *)
Theorem register_store_growth (req : Request) (st : Store) :
  map _id (store_of (register req st)) =
    map _id st ++
    (if (http_status (reply_of (register req st)) =? 201)%Z
     then [fresh_id st] else []) /\
  ~ In (fresh_id st) (map _id st).
Proof.
  split.
  - register_paths req st; unfold store_of, reply_of; simpl;
      rewrite ?app_nil_r; try reflexivity.
    + destruct (snd (backfill _ _ _ found));
        [ apply save_ids | reflexivity ].
    + rewrite map_app. reflexivity.
  - intros Hi. apply in_map_iff in Hi. destruct Hi as [r [Hr Hin]].
    apply fresh_id_above in Hin. lia.
Qed.

(** X15.  [register] writes only with authority: [save] is called only
    for the record that the request's email finds, after the request's
    truthy password verified against its hash; [create] is called only
    when no record has the request's email, and with the six fields of the
    request. *)
Theorem register_writes_only_when_authorized (req : Request) (st : Store) :
  (forall i : nat,
      In (CallSave i) (calls_of (register req st)) ->
      exists u : User,
        findOne (lookup "email" (body req)) st = Some u /\ _id u = i /\
        truthy (lookup "password" (body req)) = true /\
        comparePassword (password u) (lookup "password" (body req))
          = true) /\
  (forall f : list (string * JsVal),
      In (CallCreate f) (calls_of (register req st)) ->
      findOne (lookup "email" (body req)) st = None /\
      f = create_fields req).
Proof.
  register_paths req st; unfold calls_of; simpl; split; intros x Hx;
    repeat (destruct Hx as [ Hx | Hx ]; [ try discriminate Hx | ]);
    try contradiction.
  - destruct (snd (backfill _ _ _ found)); simpl in Hx;
      repeat (destruct Hx as [ Hx | Hx ]; [ try discriminate Hx | ]);
      try contradiction.
    inversion Hx; subst. exists found. repeat split; assumption.
  - destruct (snd (backfill _ _ _ found)); simpl in Hx;
      repeat (destruct Hx as [ Hx | Hx ]; [ try discriminate Hx | ]);
      contradiction.
  - inversion Hx; subst. split; reflexivity.
  - inversion Hx; subst. split; reflexivity.
Qed.

(** X16.  [register] writes at most once; with no [save] or [create] call
    the store afterwards is the store before; and when it answers with a
    JSON body, the store has changed exactly when it made a write call. *)
Theorem register_at_most_one_write (req : Request) (st : Store) :
  count is_write (calls_of (register req st)) <= 1 /\
  (count is_write (calls_of (register req st)) = 0 ->
   store_of (register req st) = st) /\
  (is_json (reply_of (register req st)) = true ->
   (count is_write (calls_of (register req st)) = 0 <->
    store_of (register req st) = st)).
Proof.
  register_paths req st; unfold calls_of, store_of, reply_of, count; simpl.
  - pose proof (backfill_changed (lookup "phone" (body req))
                  (lookup "age" (body req)) (lookup "gender" (body req))
                  found) as Hdiff.
    backfill_cases req found. destruct changed; simpl.
    + split; [ lia | ]. split; [ discriminate | ]. intros _.
      split; [ discriminate | ].
      intros Heq. exfalso. apply Hdiff; [ reflexivity | ].
      pose proof (map_fixed _ _ Heq found (findOne_In _ _ _ Hfind)) as Hg.
      simpl in Hg. destruct Hfix as [Hid _].
      rewrite Hid, Nat.eqb_refl in Hg. exact Hg.
    + split; [ lia | tauto ].
  - split; [ lia | tauto ].
  - split; [ lia | tauto ].
  - split; [ lia | ]. split; [ discriminate | ]. intros _.
    split; [ discriminate | ].
    intros Heq. exfalso.
    apply (f_equal (@List.length User)) in Heq.
    rewrite length_app in Heq. simpl in Heq. lia.
  - split; [ lia | ]. split; discriminate.
Qed.

(** X17.  [getMe] returns the profile of the authenticated id and of no
    other: a JSON answer has status 200 and its [user] object is the
    projection [id, name, email, role, createdAt] of a stored record whose
    id is [req.user.id]. *)
Theorem getMe_returns_own_profile
    (req : Request) (st : Store) (s : Z) (b : JsVal) :
  reply_of (getMe req st) = Json s b ->
  s = 200%Z /\
  get "success" b = JBool true /\
  exists u : User,
    In u st /\ _id u = user_id req /\
    get "user" (get "data" b) =
      JObj [("id", JOid (user_id req)); ("name", name u);
            ("email", email u); ("role", role u);
            ("createdAt", createdAt u)].
Proof.
  intros H.
  getMe_paths req st; unfold reply_of in H; simpl in H;
    [ | discriminate H ].
  inversion H; subst. clear H.
  apply find_some in Hfind. destruct Hfind as [Hin E].
  apply Nat.eqb_eq in E.
  split; [ reflexivity | ]. split; [ reflexivity | ].
  exists found. split; [ exact Hin | ]. split; [ exact E | ].
  rewrite <- E. reflexivity.
Qed.

(** X18.  A successful [register] or [login] answers for the account of
    the request's email: the [email] of the returned user view is the email
    of the request. *)
Theorem success_is_for_requested_email
    (h : Request -> Store -> Reply * Store * list Call)
    (req : Request) (st : Store) (s : Z) (b : JsVal) :
  h = register \/ h = login ->
  reply_of (h req st) = Json s b ->
  get "email" (get "user" (get "data" b)) = lookup "email" (body req).
Proof.
  intros [ -> | -> ] H.
  - register_paths req st; unfold reply_of in H; simpl in H;
      try discriminate H.
    + backfill_cases req found. inversion H; subst. clear H. simpl.
      destruct Hfix as [_ [_ [Hem _]]]. rewrite Hem.
      apply (findOne_email _ _ _ Hfind).
    + inversion H; subst. reflexivity.
  - login_paths req st; unfold reply_of in H; simpl in H;
      try discriminate H.
    inversion H; subst. simpl. apply (findOne_email _ _ _ Hfind).
Qed.

End Further.

(** ** The further properties on the sample store *)

(** Alice logs in with a wrong password: the comparison is for her record
    and for the password of the request. *)
Lemma password_compared_only_when_supplied_witness :
  JStr "rabbit" = lookup "password" (body alice_wrong_password) /\
  truthy (JStr "rabbit") = true /\
  exists u : User,
    findOne (lookup "email" (body alice_wrong_password)) sample_store
      = Some u /\ _id u = 1.
Proof.
  apply (@password_compared_only_when_supplied sample login
           alice_wrong_password sample_store 1 (JStr "rabbit")
           (or_intror eq_refl) (or_intror (or_introl eq_refl))).
Defined.

(** Carol registers, Alice registers again, Carol registers again: the
    store stays keyed by email. *)
Lemma register_all_keeps_wf_witness :
  wf_store (register_all (C:=sample) [carol_new; alice_again; carol_new]
              sample_store) = true.
Proof.
  apply (@register_all_keeps_wf sample [carol_new; alice_again; carol_new]
           sample_store eq_refl).
Defined.

(** Through the same run Alice keeps her password hash and her email. *)
Lemma register_all_keeps_identity_witness :
  exists u' : User,
    In u' (register_all (C:=sample) [carol_new; alice_again; carol_new]
             sample_store) /\
    _id u' = 1 /\ password u' = JStr "hashed:wonder" /\
    email u' = JStr "alice@example.com".
Proof.
  destruct (@register_all_keeps_identity sample
              [carol_new; alice_again; carol_new] sample_store alice
              eq_refl (or_introl eq_refl))
    as [u' [Hin [Hid [_ [He [Hp _]]]]]].
  exists u'. repeat split; assumption.
Defined.

(** Carol submits the registration form twice. *)
Lemma register_again_is_recognized_witness :
  exists b2 : JsVal,
    reply_of (register (C:=sample) carol_new
                (store_of (register (C:=sample) carol_new sample_store)))
      = Json 200 b2 /\
    store_of (register (C:=sample) carol_new
                (store_of (register (C:=sample) carol_new sample_store)))
      = store_of (register (C:=sample) carol_new sample_store).
Proof.
  destruct (@register_again_is_recognized sample carol_new sample_store _
              eq_refl eq_refl eq_refl)
    as [b2 [Hr [_ [_ [Hst _]]]]].
  exists b2. split; assumption.
Defined.

(** Carol registers and then logs in. *)
Lemma login_after_register_witness :
  exists b2 : JsVal,
    reply_of (login (C:=sample) carol_new
                (store_of (register (C:=sample) carol_new sample_store)))
      = Json 200 b2.
Proof.
  destruct (@login_after_register sample carol_new sample_store _
              eq_refl eq_refl eq_refl eq_refl)
    as [b2 [Hr _]].
  exists b2. exact Hr.
Defined.

(** Alice submits her second registration twice. *)
Lemma recognized_again_writes_nothing_witness :
  store_of (register (C:=sample) alice_again
              (store_of (register (C:=sample) alice_again sample_store)))
    = store_of (register (C:=sample) alice_again sample_store) /\
  count is_write
    (calls_of (register (C:=sample) alice_again
                 (store_of (register (C:=sample) alice_again sample_store))))
    = 0.
Proof.
  destruct (@recognized_again_writes_nothing sample alice_again sample_store
              alice eq_refl eq_refl eq_refl eq_refl)
    as [b1 [b2 [_ [_ [_ [Hst Hc]]]]]].
  split; assumption.
Defined.

(** Carol registers and then asks for her profile under the id she got. *)
Lemma getMe_after_register_witness :
  http_status
    (reply_of (getMe (profile_of 3)
                 (store_of (register (C:=sample) carol_new sample_store))))
    = 200%Z.
Proof.
  rewrite (@getMe_after_register sample carol_new (profile_of 3)
             sample_store _ eq_refl eq_refl).
  reflexivity.
Defined.

(** Alice asks for her own profile. *)
Lemma getMe_returns_own_profile_witness :
  exists u : User,
    In u sample_store /\ _id u = 1 /\
    get "user" (get "data"
      (JObj [("success", JBool true);
             ("data", JObj [("user", profile_view alice)])])) =
      JObj [("id", JOid 1); ("name", name u); ("email", email u);
            ("role", role u); ("createdAt", createdAt u)].
Proof.
  destruct (@getMe_returns_own_profile alice_profile sample_store 200
              (JObj [("success", JBool true);
                     ("data", JObj [("user", profile_view alice)])])
              eq_refl)
    as [_ [_ H]].
  exact H.
Defined.

(** Carol's registration is answered with Carol's address. *)
Lemma success_is_for_requested_email_witness :
  exists b : JsVal,
    reply_of (register (C:=sample) carol_new sample_store) = Json 201 b /\
    get "email" (get "user" (get "data" b)) = JStr "carol@example.com".
Proof.
  eexists. split; [ reflexivity | ].
  apply (@success_is_for_requested_email sample register carol_new
           sample_store 201 _ (or_introl eq_refl) eq_refl).
Defined.
